(** * Annual performance pipeline (pages/2_Annual_Performance.py)

    A shallow embedding of the year partitioning, fill, normalisation,
    calendar re-indexing, summary and chart-trace construction of the
    annual performance page, with the properties of its specification.

    Conventions.
    - Close prices are binary64 numbers, modelled bit-exactly with the
      standard library's [spec_float] operations at precision 53 and
      maximal exponent 1024.  A missing close is the NaN of the column.
    - The index of the price frame holds calendar dates (daily bars).
    - A pandas Series is a list of (label, value) rows; a dict keyed by
      year is a [gmap Z]; a dict whose key order is read back is an
      insertion-ordered association list.
    - Python exceptions are explicit outcomes. *)

From Stdlib Require Import ZArith List Bool Lia String Sorted.
From Stdlib Require Import Floats.SpecFloat.
From stdpp Require Import base option list gmap.
Import ListNotations.

Local Open Scope Z_scope.

(* ------------------------------------------------------------------ *)
(** ** Outcomes of a Python computation *)

Inductive exn : Type := KeyError | IndexError | ValueError.

(** [Stuck] marks the one step this development gives no semantics to:
    a label lookup [.loc] that matches several rows and so yields a
    sub-series instead of a scalar. *)
Inductive outcome (A : Type) : Type :=
  | Ok (a : A)
  | Raise (e : exn)
  | Stuck.

Arguments Ok {A} a.
Arguments Raise {A} e.
Arguments Stuck {A}.

#[global] Instance outcome_ret : MRet outcome := fun A a => Ok a.

#[global] Instance outcome_bind : MBind outcome := fun A B f m =>
  match m with
  | Ok a => f a
  | Raise e => Raise e
  | Stuck => Stuck
  end.

(** [for x in l: acc = f acc x], stopping at the first exception. *)
Fixpoint for_each {A S : Type} (f : S -> A -> outcome S) (l : list A) (acc : S)
  : outcome S :=
  match l with
  | [] => Ok acc
  | x :: r => acc' ← f acc x; for_each f r acc'
  end.

(** A list comprehension whose element expression may raise. *)
Fixpoint comprehension {A B : Type} (f : A -> outcome B) (l : list A)
  : outcome (list B) :=
  match l with
  | [] => Ok []
  | x :: r => y ← f x; ys ← comprehension f r; Ok (y :: ys)
  end.

(* ------------------------------------------------------------------ *)
(** ** Calendar dates *)

Record Timestamp : Type := mkTimestamp { year : Z; month : Z; day : Z }.

#[global] Instance Timestamp_eq_dec : EqDecision Timestamp.
Proof. solve_decision. Defined.

Definition is_leap (y : Z) : bool :=
  (y mod 4 =? 0) && (negb (y mod 100 =? 0) || (y mod 400 =? 0)).

Definition days_in_month (y m : Z) : Z :=
  if m =? 2 then (if is_leap y then 29 else 28)
  else if (m =? 4) || (m =? 6) || (m =? 9) || (m =? 11) then 30
  else 31.

(** The dates a [pd.Timestamp] can hold (whole years of its range). *)
Definition valid_ymd (y m d : Z) : bool :=
  (1677 <? y) && (y <? 2262) &&
  (1 <=? m) && (m <=? 12) &&
  (1 <=? d) && (d <=? days_in_month y m).

Definition valid_date (t : Timestamp) : bool :=
  valid_ymd (year t) (month t) (day t).

(** [pd.Timestamp(y, m, d)]: raises ValueError on a date that does not
    exist. *)
Definition Timestamp_new (y m d : Z) : outcome Timestamp :=
  if valid_ymd y m d then Ok (mkTimestamp y m d) else Raise ValueError.

(** Chronological order. *)
Definition Timestamp_ltb (a b : Timestamp) : bool :=
  (year a <? year b)
  || ((year a =? year b)
      && ((month a <? month b)
          || ((month a =? month b) && (day a <? day b)))).

Definition Timestamp_lt (a b : Timestamp) : Prop := Timestamp_ltb a b = true.

Fixpoint increasing (l : list Timestamp) : bool :=
  match l with
  | [] => true
  | a :: r =>
      match r with
      | [] => true
      | b :: _ => Timestamp_ltb a b && increasing r
      end
  end.

(* ------------------------------------------------------------------ *)
(** ** Binary64 close prices *)

Definition float : Type := spec_float.

Definition prec : Z := 53.
Definition emax : Z := 1024.

Definition fdiv : float -> float -> float := SFdiv prec emax.
Definition fsub : float -> float -> float := SFsub prec emax.
Definition fmul : float -> float -> float := SFmul prec emax.

(** The float a Python int literal converts to. *)
Definition float_of_Z (z : Z) : float := binary_normalize prec emax z 0 false.

Definition nan : float := S754_nan.

Definition isna (x : float) : bool :=
  match x with
  | S754_nan => true
  | _ => false
  end.

Definition notna (x : float) : bool := negb (isna x).

(* ------------------------------------------------------------------ *)
(** ** Series *)

Abbreviation Series L := (list (L * float)).

Definition index {L : Type} (s : Series L) : list L := map fst s.
Definition values {L : Type} (s : Series L) : list float := map snd s.

(** [pd.Series(vals, index=idx)]: ValueError when the lengths differ. *)
Definition Series_new {L : Type} (vals : list float) (idx : list L)
  : outcome (Series L) :=
  if Nat.eqb (length vals) (length idx) then Ok (combine idx vals)
  else Raise ValueError.

(** [s.first_valid_index()]: label of the first row that is not NaN. *)
Fixpoint first_valid_index {L : Type} (s : Series L) : option L :=
  match s with
  | [] => None
  | (l, v) :: r => if notna v then Some l else first_valid_index r
  end.

(** The first value that is not NaN, if there is one. *)
Fixpoint first_valid {L : Type} (s : Series L) : option float :=
  match s with
  | [] => None
  | (_, v) :: r => if notna v then Some v else first_valid r
  end.

(** [s.loc[label]]: KeyError for an absent label, the scalar for a label
    that occurs once. *)
Definition loc {L : Type} `{EqDecision L} (s : Series L) (label : L)
  : outcome float :=
  match List.filter (fun r => bool_decide (fst r = label)) s with
  | [] => Raise KeyError
  | [(_, v)] => Ok v
  | _ => Stuck
  end.

(** [s.iloc[j]] for [j >= 0]. *)
Definition iloc {L : Type} (s : Series L) (j : nat) : outcome float :=
  match nth_error s j with
  | Some (_, v) => Ok v
  | None => Raise IndexError
  end.

(** [s.iloc[-1]]. *)
Definition iloc_last {L : Type} (s : Series L) : outcome float :=
  match s with
  | [] => Raise IndexError
  | _ => iloc s (length s - 1)%nat
  end.

(** [s.ffill()]: a NaN takes the last valid value before it. *)
Fixpoint ffill_from {L : Type} (last : option float) (s : Series L) : Series L :=
  match s with
  | [] => []
  | (l, v) :: r =>
      if isna v
      then (l, match last with Some w => w | None => v end) :: ffill_from last r
      else (l, v) :: ffill_from (Some v) r
  end.

Definition ffill {L : Type} (s : Series L) : Series L := ffill_from None s.

(** [s.bfill()]: a NaN takes the next valid value after it. *)
Fixpoint bfill {L : Type} (s : Series L) : Series L :=
  match s with
  | [] => []
  | (l, v) :: r =>
      (l, if isna v
          then match first_valid r with Some w => w | None => v end
          else v) :: bfill r
  end.

(** Elementwise arithmetic of a series with a scalar. *)
Definition map_values {L : Type} (f : float -> float) (s : Series L) : Series L :=
  map (fun r => (fst r, f (snd r))) s.

(* ------------------------------------------------------------------ *)
(** ** The price frame and [process_annual_data] *)

(** The frame restricted to what the page reads: the date index and the
    Close column, row by row. *)
Definition DataFrame : Type := list (Timestamp * float).

(** [data[data.index.year == y]["Close"].copy()] *)
Definition year_window (data : DataFrame) (y : Z) : Series Timestamp :=
  List.filter (fun r => year (fst r) =? y) data.

Record AnnualResults : Type := mkAnnualResults {
  normalized : gmap Z (Series Timestamp);
  original : gmap Z (Series Timestamp);
  dates : gmap Z (list Timestamp)
}.

Definition no_results : AnnualResults := mkAnnualResults ∅ ∅ ∅.

(** [((year_data / first_value) - 1) * 100] on one value. *)
Definition percent_return (first_value v : float) : float :=
  fmul (fsub (fdiv v first_value) (float_of_Z 1)) (float_of_Z 100).

(** [pd.Timestamp(2000, d.month, d.day)] *)
Definition common_year (d : Timestamp) : outcome Timestamp :=
  Timestamp_new 2000 (month d) (day d).

(** The body of the loop over [years]. *)
Definition process_year (data : DataFrame) (acc : AnnualResults) (y : Z)
  : outcome AnnualResults :=
  let year_data := year_window data y in
  if (5 <? length year_data)%nat then
    match first_valid_index year_data with
    | Some first_valid_idx =>
        first_value ← loc year_data first_valid_idx;
        let year_data := bfill (ffill year_data) in
        let annual_original := <[y := year_data]> (original acc) in
        let annual_dates := <[y := index year_data]> (dates acc) in
        let norm_data := map_values (percent_return first_value) year_data in
        common_year_index ← comprehension common_year (index year_data);
        s ← Series_new (values norm_data) common_year_index;
        Ok (mkAnnualResults (<[y := s]> (normalized acc))
                            annual_original annual_dates)
    | None => Ok acc
    end
  else Ok acc.

Definition process_annual_data (data : option DataFrame) (years : list Z)
  : outcome (option AnnualResults) :=
  match data, years with
  | None, _ => Ok None
  | _, [] => Ok None
  | Some data, _ =>
      res ← for_each (process_year data) years no_results;
      Ok (Some res)
  end.

(* ------------------------------------------------------------------ *)
(** ** Insertion-ordered dicts

    [create_summary_table] reads the keys and values of its two local
    dicts back in order, so they are kept as association lists: a new key
    goes to the end, a key already present keeps its place. *)

Definition odict (V : Type) : Type := list (Z * V).

Fixpoint odict_set {V : Type} (k : Z) (v : V) (d : odict V) : odict V :=
  match d with
  | [] => [(k, v)]
  | (k', v') :: r => if k' =? k then (k, v) :: r else (k', v') :: odict_set k v r
  end.

Definition odict_keys {V : Type} (d : odict V) : list Z := map fst d.
Definition odict_values {V : Type} (d : odict V) : list V := map snd d.

(** [d[k]] on a [gmap]-modelled dict. *)
Definition getitem {V : Type} (d : gmap Z V) (k : Z) : outcome V :=
  match d !! k with
  | Some v => Ok v
  | None => Raise KeyError
  end.

(* ------------------------------------------------------------------ *)
(** ** Text rendering

    The library calls that turn numbers and dates into text. The page's
    functions are stated over any implementation of them. *)

Class Rendering : Type := {
  fmt_2f : float -> string;            (* f"{x:.2f}" *)
  strftime_Ymd : Timestamp -> string;  (* d.strftime("%Y-%m-%d") *)
  strftime_A : Timestamp -> string;    (* d.strftime("%A") *)
  str_int : Z -> string;               (* str(n) *)
  upper : string -> string             (* s.upper() *)
}.

Definition COLOR_PALETTE : list string :=
  ["#d62728"; "#1f77b4"; "#ff7f0e"; "#2ca02c"; "#9467bd";
   "#8c564b"; "#e377c2"; "#7f7f7f"; "#bcbd22"; "#17becf"]%string.

(** The summary frame, column by column, indexed by [Year]. *)
Record SummaryTable : Type := mkSummaryTable {
  Year : list Z;
  Year_End_Value : list string;
  Year_Performance : list string
}.

(** One [go.Scatter] trace. *)
Record Trace : Type := mkTrace {
  trace_x : list Timestamp;
  trace_y : list float;
  trace_name : string;
  trace_color : string;
  trace_hovertext : option (list string);
  trace_customdata : list (string * float * float)
}.

Record Figure : Type := mkFigure {
  traces : list Trace;
  layout_title : string;
  yaxis_title : string;
  yaxis_ticksuffix : string
}.

(** What the page puts on screen. *)
Inductive ui : Type :=
  | PlotlyChart (fig : Figure)
  | Subheader (s : string)
  | Table (t : SummaryTable)
  | Warning (s : string)
  | Error (s : string).

Section Presentation.
Context {R : Rendering}.
Local Open Scope string_scope.

(** Year-end entries gathered by the loop of [create_summary_table]:
    the pair [(year_end_perf, year_end_value)]. *)
Definition summary_step
    (annual_data annual_original : gmap Z (Series Timestamp))
    (acc : odict float * odict float) (y : Z)
  : outcome (odict float * odict float) :=
  match annual_data !! y with
  | Some s =>
      match s with
      | [] => Ok acc
      | _ =>
          p ← iloc_last s;
          let year_end_perf := odict_set y p (fst acc) in
          o ← getitem annual_original y;
          v ← iloc_last o;
          Ok (year_end_perf, odict_set y v (snd acc))
      end
  | None => Ok acc
  end.

Definition year_end
    (annual_data annual_original : gmap Z (Series Timestamp))
    (years_to_display : list Z)
  : outcome (odict float * odict float) :=
  for_each (summary_step annual_data annual_original) years_to_display ([], []).

(** [pd.DataFrame({...}).set_index("Year")]: ValueError when the
    columns differ in length. *)
Definition SummaryTable_new (ys : list Z) (vs ps : list string)
  : outcome SummaryTable :=
  if Nat.eqb (length ys) (length vs) && Nat.eqb (length ys) (length ps)
  then Ok (mkSummaryTable ys vs ps)
  else Raise ValueError.

Definition create_summary_table
    (annual_data annual_original : gmap Z (Series Timestamp))
    (years_to_display : list Z)
  : outcome (option SummaryTable) :=
  '(year_end_perf, year_end_value) ←
      year_end annual_data annual_original years_to_display;
  match year_end_perf with
  | [] => Ok None
  | _ =>
      t ← SummaryTable_new (odict_keys year_end_perf)
            (map fmt_2f (odict_values year_end_value))
            (map fmt_2f (odict_values year_end_perf));
      Ok (Some t)
  end.

Definition hover_label (actual_date : Timestamp) (value perf_value : float)
  : string :=
  ("<b>Date</b>: " ++ strftime_Ymd actual_date ++ "<br>")
  ++ ("<b>Day</b>: " ++ strftime_A actual_date ++ "<br>")
  ++ ("<b>Value</b>: " ++ fmt_2f value ++ "<br>")
  ++ ("<b>Performance</b>: " ++ fmt_2f perf_value ++ "%").

(** The loop of [create_hover_text] from position [j] on. *)
Fixpoint hover_loop (actual_dates : list Timestamp)
    (original_series : Series Timestamp)
    (items : Series Timestamp) (j : nat) (hover_text : list string)
  : outcome (list string) :=
  match items with
  | [] => Ok hover_text
  | (_, perf_value) :: rest =>
      match nth_error actual_dates j with
      | Some actual_date =>
          value ← iloc original_series j;
          hover_loop actual_dates original_series rest (S j)
            (hover_text ++ [hover_label actual_date value perf_value])%list
      | None =>
          hover_loop actual_dates original_series rest (S j) hover_text
      end
  end.

Definition create_hover_text (actual_dates : list Timestamp)
    (original_series year_series : Series Timestamp)
  : outcome (list string) :=
  hover_loop actual_dates original_series year_series 0%nat [].

(** [zip] stops at its shortest argument. *)
Fixpoint zip3 {A B C : Type} (a : list A) (b : list B) (c : list C)
  : list (A * B * C) :=
  match a, b, c with
  | x :: a', y :: b', z :: c' => (x, y, z) :: zip3 a' b' c'
  | _, _, _ => []
  end.

(** The trace of one displayed year; [i] is its position in
    [years_to_display]. *)
Definition year_trace (annual_results : AnnualResults) (show_percent : bool)
    (i : nat) (y : Z) (year_series : Series Timestamp)
  : outcome Trace :=
  y_data ←
    (if show_percent then Ok (values year_series)
     else o ← getitem (original annual_results) y; Ok (values o));
  let dates_ := index year_series in
  actual_dates ← getitem (dates annual_results) y;
  original_series ← getitem (original annual_results) y;
  hover_text ← create_hover_text actual_dates original_series year_series;
  let custom_data :=
    map (fun '(d, p, v) => (strftime_Ymd d, p, v))
        (zip3 actual_dates (values original_series) (values year_series)) in
  Ok (mkTrace dates_ y_data (str_int y)
        (nth (i mod length COLOR_PALETTE) COLOR_PALETTE "")
        (if Nat.eqb (length hover_text) (length dates_)
         then Some hover_text else None)
        custom_data).

Fixpoint chart_loop (annual_results : AnnualResults) (show_percent : bool)
    (i : nat) (years : list Z) : outcome (list Trace) :=
  match years with
  | [] => Ok []
  | y :: rest =>
      match normalized annual_results !! y with
      | Some year_series =>
          t ← year_trace annual_results show_percent i y year_series;
          ts ← chart_loop annual_results show_percent (S i) rest;
          Ok (t :: ts)
      | None => chart_loop annual_results show_percent (S i) rest
      end
  end.

Definition create_performance_chart (annual_results : AnnualResults)
    (ticker_symbol : string) (years_to_display : list Z) (show_percent : bool)
  : outcome Figure :=
  ts ← chart_loop annual_results show_percent 0%nat years_to_display;
  Ok (mkFigure ts
        (upper ticker_symbol ++ " - Annual "
           ++ (if show_percent then "Performance (%)" else "Value"))
        (if show_percent then "Performance (%)" else "Value")
        (if show_percent then "%" else "")).

(** [process_and_display_data], given what [get_asset_data] returned. *)
Definition process_and_display_data (asset_data : option DataFrame)
    (ticker_symbol : string) (years_to_display : list Z) (show_percent : bool)
  : outcome (list ui) :=
  match asset_data, years_to_display with
  | Some _, _ :: _ =>
      annual_results ← process_annual_data asset_data years_to_display;
      match annual_results with
      | Some res =>
          if Nat.eqb (size (normalized res)) 0
          then Ok [Warning ("No complete annual data available for "
                            ++ ticker_symbol ++ " in the selected years.")]
          else
            fig ← create_performance_chart res ticker_symbol
                    years_to_display show_percent;
            summary_df ← create_summary_table (normalized res) (original res)
                           years_to_display;
            Ok ([PlotlyChart fig; Subheader "Performance Summary"]
                ++ match summary_df with
                   | Some t => [Table t]
                   | None => []
                   end)%list
      | None =>
          Ok [Warning ("No complete annual data available for "
                       ++ ticker_symbol ++ " in the selected years.")]
      end
  | None, _ :: _ =>
      Ok [Error ("Failed to retrieve data for " ++ ticker_symbol
                 ++ ". Please check the ticker symbol.")]
  | _, [] => Ok [Warning "Please select at least one year to display"]
  end.

End Presentation.

(* ------------------------------------------------------------------ *)
(** ** A rendering for ASCII text

    One implementation of [Rendering], used to run the page's functions
    on concrete frames: correctly rounded two-decimal formatting
    (ties to even on the exact binary value), ISO dates, English weekday
    names and ASCII upper-casing. *)

Module AsciiRendering.
Local Open Scope string_scope.
Local Open Scope Z_scope.

Definition digit (n : Z) : string :=
  String (Ascii.ascii_of_N (Z.to_N (48 + n mod 10))) "".

Fixpoint digits_fuel (fuel : nat) (n : Z) : string :=
  match fuel with
  | O => digit n
  | S f => if n <? 10 then digit n else digits_fuel f (n / 10) ++ digit n
  end.

(** Decimal digits of a non-negative integer. *)
Definition decimal (n : Z) : string := digits_fuel (Z.to_nat (Z.log2 n)) n.

Definition str_of_int (n : Z) : string :=
  if n <? 0 then "-" ++ decimal (- n) else decimal n.

Definition pad2 (n : Z) : string :=
  if n <? 10 then "0" ++ decimal n else decimal n.

Definition pad4 (n : Z) : string :=
  if n <? 10 then "000" ++ decimal n
  else if n <? 100 then "00" ++ decimal n
  else if n <? 1000 then "0" ++ decimal n
  else decimal n.

Definition iso_date (t : Timestamp) : string :=
  pad4 (year t) ++ "-" ++ pad2 (month t) ++ "-" ++ pad2 (day t).

(** Days since 1970-01-01 in the proleptic Gregorian calendar. *)
Definition days_from_civil (t : Timestamp) : Z :=
  let y := if month t <=? 2 then year t - 1 else year t in
  let era := y / 400 in
  let yoe := y - era * 400 in
  let mp := if month t <=? 2 then month t + 9 else month t - 3 in
  let doy := (153 * mp + 2) / 5 + day t - 1 in
  let doe := yoe * 365 + yoe / 4 - yoe / 100 + doy in
  era * 146097 + doe - 719468.

Definition weekday_name (t : Timestamp) : string :=
  nth (Z.to_nat ((days_from_civil t + 3) mod 7))
      ["Monday"; "Tuesday"; "Wednesday"; "Thursday"; "Friday";
       "Saturday"; "Sunday"] "".

(** [round(m * 2^e * 100)] to the nearest integer, ties to even. *)
Definition hundredths (m : positive) (e : Z) : Z :=
  if 0 <=? e then 100 * Z.pos m * 2 ^ e
  else
    let den := 2 ^ (- e) in
    let q := (100 * Z.pos m) / den in
    let r := (100 * Z.pos m) mod den in
    match Z.compare (2 * r) den with
    | Lt => q
    | Gt => q + 1
    | Eq => if Z.even q then q else q + 1
    end.

Definition sign_prefix (s : bool) : string := if s then "-" else "".

Definition two_decimals (x : float) : string :=
  match x with
  | S754_nan => "nan"
  | S754_infinity s => sign_prefix s ++ "inf"
  | S754_zero s => sign_prefix s ++ "0.00"
  | S754_finite s m e =>
      let h := hundredths m e in
      sign_prefix s ++ decimal (h / 100) ++ "." ++ pad2 (h mod 100)
  end.

Definition upper_ascii (c : Ascii.ascii) : Ascii.ascii :=
  let n := Ascii.N_of_ascii c in
  if (97 <=? n)%N && (n <=? 122)%N then Ascii.ascii_of_N (n - 32) else c.

Fixpoint upper_string (s : string) : string :=
  match s with
  | EmptyString => EmptyString
  | String c r => String (upper_ascii c) (upper_string r)
  end.

#[export] Instance rendering : Rendering := {|
  fmt_2f := two_decimals;
  strftime_Ymd := iso_date;
  strftime_A := weekday_name;
  str_int := str_of_int;
  upper := upper_string
|}.
End AsciiRendering.

(* ------------------------------------------------------------------ *)
(** ** Well-formed price frames

    The frame the data provider returns: every index entry is a real
    date and the index is strictly increasing (chronological, no
    repeated date). *)

Definition RawPriceSeries (data : DataFrame) : bool :=
  forallb valid_date (index data) && increasing (index data).

(** The synthetic date of a true date. *)
Definition synthetic (t : Timestamp) : Timestamp :=
  mkTimestamp 2000 (month t) (day t).

(** Closed forms of what one iteration of the loop stores. *)
Definition baseline (data : DataFrame) (y : Z) : option float :=
  first_valid (year_window data y).

Definition survives (data : DataFrame) (y : Z) : bool :=
  (5 <? length (year_window data y))%nat
  && match baseline data y with Some _ => true | None => false end.

Definition filled (data : DataFrame) (y : Z) : Series Timestamp :=
  bfill (ffill (year_window data y)).

Definition normalized_series (data : DataFrame) (y : Z) : Series Timestamp :=
  combine (map synthetic (index (filled data y)))
          (map (percent_return (default nan (baseline data y)))
               (values (filled data y))).

(** What one iteration stores, and the loop as a fold. *)
Definition store_year (data : DataFrame) (acc : AnnualResults) (y : Z)
  : AnnualResults :=
  if survives data y
  then mkAnnualResults (<[y := normalized_series data y]> (normalized acc))
                       (<[y := filled data y]> (original acc))
                       (<[y := index (filled data y)]> (dates acc))
  else acc.

Definition run_years (data : DataFrame) (years : list Z) (acc : AnnualResults)
  : AnnualResults :=
  fold_left (store_year data) years acc.

(** [y in years] *)
Definition requested (y : Z) (years : list Z) : bool := existsb (Z.eqb y) years.

(** Closed forms for the summary: the years that get a row, in order,
    and the last value of a year's series. *)
Definition has_data (d : gmap Z (Series Timestamp)) (y : Z) : bool :=
  match d !! y with
  | Some (_ :: _) => true
  | _ => false
  end.

Definition last_value (d : gmap Z (Series Timestamp)) (y : Z) : float :=
  match d !! y with
  | Some s => List.last (values s) nan
  | None => nan
  end.

Definition add_key (y : Z) (ks : list Z) : list Z :=
  if existsb (Z.eqb y) ks then ks else ks ++ [y].

Definition shown_years (annual_data : gmap Z (Series Timestamp))
    (years ks : list Z) : list Z :=
  fold_left (fun ks y => if has_data annual_data y then add_key y ks else ks)
            years ks.

(** Every displayed year that has normalized data also has original
    data. *)
Definition coherent (annual_data annual_original : gmap Z (Series Timestamp))
    (years : list Z) : bool :=
  forallb (fun y => implb (has_data annual_data y) (has_data annual_original y))
          years.

Definition summary_years (t : option SummaryTable) : list Z :=
  match t with
  | Some t => Year t
  | None => []
  end.

(** Closed forms for the chart: the labels of a year, its trace, and the
    traces of the displayed years. *)
Definition hover_labels {R : Rendering} (actual_dates : list Timestamp)
    (original_series year_series : Series Timestamp) : list string :=
  map (fun '(d, v, p) => hover_label d v p)
      (zip3 actual_dates (values original_series) (values year_series)).

Definition trace_of {R : Rendering} (show_percent : bool) (i : nat) (y : Z)
    (year_series : Series Timestamp) (actual_dates : list Timestamp)
    (original_series : Series Timestamp) : Trace :=
  mkTrace (index year_series)
    (if show_percent then values year_series else values original_series)
    (str_int y)
    (nth (i mod length COLOR_PALETTE) COLOR_PALETTE ""%string)
    (if Nat.eqb (length (hover_labels actual_dates original_series year_series))
                (length (index year_series))
     then Some (hover_labels actual_dates original_series year_series)
     else None)
    (map (fun '(d, p, v) => (strftime_Ymd d, p, v))
         (zip3 actual_dates (values original_series) (values year_series))).

Fixpoint traces_of {R : Rendering} (res : AnnualResults) (show_percent : bool)
    (i : nat) (years : list Z) : list Trace :=
  match years with
  | [] => []
  | y :: rest =>
      match normalized res !! y, dates res !! y, original res !! y with
      | Some s, Some ds, Some o =>
          trace_of show_percent i y s ds o
          :: traces_of res show_percent (S i) rest
      | _, _, _ => traces_of res show_percent (S i) rest
      end
  end.

(** Every displayed year with a normalized series has its dates and an
    original series long enough for the positions that get a label. *)
Definition chart_ready (res : AnnualResults) (years : list Z) : bool :=
  forallb
    (fun y =>
       match normalized res !! y with
       | Some s =>
           match dates res !! y, original res !! y with
           | Some ds, Some o =>
               (Nat.min (length ds) (length s) <=? length o)%nat
           | _, _ => false
           end
       | None => true
       end)
    years.

(** A trace with its y data removed. *)
Definition without_y (t : Trace) : Trace :=
  mkTrace (trace_x t) [] (trace_name t) (trace_color t) (trace_hovertext t)
          (trace_customdata t).

Definition finite_nonzero (x : float) : bool :=
  match x with
  | S754_finite _ _ _ => true
  | _ => false
  end.

(* ------------------------------------------------------------------ *)
(** ** Example frames *)

Definition jan21 (dd : Z) : Timestamp := mkTimestamp 2021 1 dd.

(** 10.000000000000009 *)
Definition f10_000000000000009 : float := S754_finite false 5629499534213125 (-49).

(** 20.999999999999996 *)
Definition f20_999999999999996 : float := S754_finite false 5910974510923775 (-48).

(** Closes 100, 110, 121 on 2021-01-04, 05 and 06. *)
Definition three_day_frame : DataFrame :=
  [(jan21 4, float_of_Z 100); (jan21 5, float_of_Z 110); (jan21 6, float_of_Z 121)].

(** The same three days followed by three more closes of 121. *)
Definition six_day_frame : DataFrame :=
  three_day_frame
  ++ [(jan21 7, float_of_Z 121); (jan21 8, float_of_Z 121); (jan21 11, float_of_Z 121)].

(** A window of 2020 with a leading, an interior and a trailing gap,
    and a bar on February 29. *)
Definition gap_frame : DataFrame :=
  [(mkTimestamp 2020 2 26, nan); (mkTimestamp 2020 2 27, nan);
   (mkTimestamp 2020 2 28, float_of_Z 50); (mkTimestamp 2020 2 29, nan);
   (mkTimestamp 2020 3 1, float_of_Z 60); (mkTimestamp 2020 3 2, nan)].

(** A window whose first close is 0. *)
Definition zero_frame : DataFrame :=
  [(jan21 4, float_of_Z 0); (jan21 5, float_of_Z 1); (jan21 6, float_of_Z 2);
   (jan21 7, float_of_Z 3); (jan21 8, float_of_Z 4); (jan21 11, float_of_Z 5)].

(** Three bars of 2019 followed by six bars of 2020. *)
Definition two_year_frame : DataFrame :=
  [(mkTimestamp 2019 12 27, float_of_Z 10); (mkTimestamp 2019 12 30, float_of_Z 11);
   (mkTimestamp 2019 12 31, float_of_Z 12);
   (mkTimestamp 2020 1 2, float_of_Z 20); (mkTimestamp 2020 1 3, float_of_Z 21);
   (mkTimestamp 2020 1 6, float_of_Z 22); (mkTimestamp 2020 1 7, float_of_Z 23);
   (mkTimestamp 2020 1 8, float_of_Z 24); (mkTimestamp 2020 1 9, float_of_Z 25)].

(** Six bars of 2019 followed by six bars of 2020. *)
Definition overlay_frame : DataFrame :=
  [(mkTimestamp 2019 3 1, float_of_Z 40); (mkTimestamp 2019 3 4, float_of_Z 41);
   (mkTimestamp 2019 3 5, float_of_Z 42); (mkTimestamp 2019 3 6, float_of_Z 43);
   (mkTimestamp 2019 3 7, float_of_Z 44); (mkTimestamp 2019 3 8, float_of_Z 50);
   (mkTimestamp 2020 3 2, float_of_Z 80); (mkTimestamp 2020 3 3, float_of_Z 81);
   (mkTimestamp 2020 3 4, float_of_Z 82); (mkTimestamp 2020 3 5, float_of_Z 83);
   (mkTimestamp 2020 3 6, float_of_Z 84); (mkTimestamp 2020 3 9, float_of_Z 60)].

(** What the pipeline returns on it for the years 2020, 2019 (in that
    order). *)
Definition overlay_results : AnnualResults :=
  run_years overlay_frame [2020; 2019] no_results.

(** A year whose dates are one short of its series: labels and series
    disagree in length. *)
Definition mismatched_results : AnnualResults :=
  mkAnnualResults
    {[ 2021 := [(mkTimestamp 2000 1 4, float_of_Z 0);
                (mkTimestamp 2000 1 5, float_of_Z 10)] ]}
    {[ 2021 := [(jan21 4, float_of_Z 100); (jan21 5, float_of_Z 110)] ]}
    {[ 2021 := [jan21 4] ]}.

(* ------------------------------------------------------------------ *)
(** ** The sidebar and the download *)

(** [list(range(start, stop, -1))] *)
Definition range_down (start stop : Z) : list Z :=
  map (fun k => start - Z.of_nat k) (seq 0 (Z.to_nat (start - stop))).

(** The years [get_user_inputs] offers in the multiselect:
    [list(range(current_year, current_year - num_years, -1))]. *)
Definition all_years (current_year num_years : Z) : list Z :=
  range_down current_year (current_year - num_years).

(** What [yf.download] does: a frame, nothing, or an exception with its
    message. *)
Inductive download_result : Type :=
  | Downloaded (asset_df : option DataFrame)
  | DownloadFailed (e : string).

(** [get_asset_data], without its cache: the frame it returns and the
    messages it shows. [download] stands for [yf.download] and [today]
    for [datetime.now().strftime("%Y-%m-%d")]. Flattening the column
    index leaves the Close column as it is. *)
Definition get_asset_data {R : Rendering}
    (download : string -> string -> string -> download_result)
    (today ticker : string) (years : list Z)
  : option DataFrame * list ui :=
  match years with
  | [] => (None, [Warning "Please select at least one year to display"])
  | y :: r =>
      let start_date := (str_int (fold_left Z.min r y - 1) ++ "-12-31")%string in
      let end_date := today in
      match download ticker start_date end_date with
      | DownloadFailed e => (None, [Error ("Error fetching data: " ++ e)])
      | Downloaded None
      | Downloaded (Some []) =>
          (None, [Error ("No data found for ticker '" ++ ticker ++ "'")])
      | Downloaded (Some asset_df) => (Some asset_df, [])
      end
  end.

(** [process_and_display_data] as the page runs it, the call of
    [get_asset_data] included: the messages of the fetch, then what is
    shown for its result. *)
Definition fetch_and_display {R : Rendering}
    (download : string -> string -> string -> download_result)
    (today ticker : string) (years : list Z) (show_percent : bool)
  : outcome (list ui) :=
  let '(asset_data, messages) := get_asset_data download today ticker years in
  shown ← process_and_display_data asset_data ticker years show_percent;
  Ok (messages ++ shown).

(** [y in res["normalized"]] *)
Definition has_series (res : AnnualResults) (y : Z) : bool :=
  match normalized res !! y with
  | Some _ => true
  | None => false
  end.

(** A download that answers with the two-year example frame, and one
    that fails. *)
Definition overlay_download (ticker start_date end_date : string)
  : download_result :=
  Downloaded (Some overlay_frame).

Definition failing_download (ticker start_date end_date : string)
  : download_result :=
  DownloadFailed "connection reset".

(** The example frame with its rows of 2020 replaced by other closes. *)
Definition overlay_frame_2020_changed : DataFrame :=
  year_window overlay_frame 2019
  ++ [(mkTimestamp 2020 3 2, float_of_Z 1); (mkTimestamp 2020 3 3, float_of_Z 2);
      (mkTimestamp 2020 3 4, float_of_Z 3); (mkTimestamp 2020 3 5, float_of_Z 4);
      (mkTimestamp 2020 3 6, float_of_Z 5); (mkTimestamp 2020 3 9, float_of_Z 6)].

(** Results in which 2021 has a normalized series but no original
    series, and in which it has no dates. *)
Definition results_without_original : AnnualResults :=
  mkAnnualResults (normalized mismatched_results) ∅ (dates mismatched_results).

Definition results_without_dates : AnnualResults :=
  mkAnnualResults (normalized mismatched_results)
                  (original mismatched_results) ∅.

(* ------------------------------------------------------------------ *)
(** * Lemmas *)

Ltac bool_to_prop :=
  repeat match goal with
  | H : _ && _ = true |- _ => apply andb_true_iff in H; destruct H
  | H : _ || _ = true |- _ => apply orb_true_iff in H
  | H : (_ <? _) = true |- _ => apply Z.ltb_lt in H
  | H : (_ <=? _) = true |- _ => apply Z.leb_le in H
  | H : (_ =? _) = true |- _ => apply Z.eqb_eq in H
  | H : (_ =? _) = false |- _ => apply Z.eqb_neq in H
  | H : (_ <? _) = false |- _ => apply Z.ltb_ge in H
  end.

Section Dates.

Lemma Timestamp_ltb_spec a b :
  Timestamp_ltb a b = true <->
  year a < year b \/
  (year a = year b /\
   (month a < month b \/ (month a = month b /\ day a < day b))).
Proof.
  unfold Timestamp_ltb.
  rewrite !orb_true_iff, !andb_true_iff, !orb_true_iff, !andb_true_iff,
    !Z.ltb_lt, !Z.eqb_eq.
  tauto.
Qed.

Lemma Timestamp_lt_irrefl a : ~ Timestamp_lt a a.
Proof. unfold Timestamp_lt. rewrite Timestamp_ltb_spec. lia. Qed.

Lemma Timestamp_lt_trans a b c :
  Timestamp_lt a b -> Timestamp_lt b c -> Timestamp_lt a c.
Proof. unfold Timestamp_lt. rewrite !Timestamp_ltb_spec. lia. Qed.

(** Within one calendar year, the order of two dates is the order of
    their synthetic dates. *)
Lemma synthetic_ltb a b :
  year a = year b ->
  Timestamp_ltb (synthetic a) (synthetic b) = Timestamp_ltb a b.
Proof.
  intros Hy. apply eq_true_iff_eq.
  rewrite !Timestamp_ltb_spec. simpl. lia.
Qed.

Lemma synthetic_inj a b :
  year a = year b -> synthetic a = synthetic b -> a = b.
Proof.
  destruct a as [ya ma da], b as [yb mb db]. simpl.
  intros -> Heq. inversion Heq. reflexivity.
Qed.

Lemma days_in_month_2000 y m : days_in_month y m <= days_in_month 2000 m.
Proof.
  unfold days_in_month.
  destruct (m =? 2).
  - change (is_leap 2000) with true. destruct (is_leap y); lia.
  - destruct ((m =? 4) || (m =? 6) || (m =? 9) || (m =? 11)); lia.
Qed.

Lemma valid_ymd_2000 y m dd :
  valid_ymd y m dd = true -> valid_ymd 2000 m dd = true.
Proof.
  unfold valid_ymd. intros Hv.
  pose proof (days_in_month_2000 y m) as Hd.
  bool_to_prop.
  rewrite !andb_true_iff, !Z.leb_le. simpl. repeat split; try lia.
Qed.

Lemma common_year_valid t :
  valid_date t = true -> common_year t = Ok (synthetic t).
Proof.
  unfold valid_date, common_year, Timestamp_new. intros Hv.
  rewrite (valid_ymd_2000 _ _ _ Hv). reflexivity.
Qed.

Lemma comprehension_common_year idx :
  forallb valid_date idx = true ->
  comprehension common_year idx = Ok (map synthetic idx).
Proof.
  induction idx as [|t idx IH]; simpl; intros Hv; [reflexivity|].
  apply andb_true_iff in Hv. destruct Hv as [Ht Hidx].
  rewrite (common_year_valid _ Ht). simpl.
  rewrite (IH Hidx). reflexivity.
Qed.

End Dates.

Section SeriesFacts.
Context {L : Type}.
Implicit Types (s r : Series L) (v w : float).

Lemma index_ffill_from last s : index (ffill_from last s) = index s.
Proof.
  revert last. induction s as [|[l v] r IH]; intros last; simpl; [reflexivity|].
  destruct (isna v); simpl; rewrite IH; reflexivity.
Qed.

Lemma index_bfill s : index (bfill s) = index s.
Proof.
  induction s as [|[l v] r IH]; simpl; [reflexivity|].
  rewrite IH. reflexivity.
Qed.

Lemma values_map_values f s : values (map_values f s) = map f (values s).
Proof.
  unfold values, map_values. rewrite !map_map. reflexivity.
Qed.

Lemma length_index s : length (index s) = length s.
Proof. apply length_map. Qed.

Lemma length_values s : length (values s) = length s.
Proof. apply length_map. Qed.

Lemma first_valid_notna s v : first_valid s = Some v -> notna v = true.
Proof.
  induction s as [|[l w] r IH]; simpl; [discriminate|].
  destruct (notna w) eqn:Hw; [|exact IH].
  intros Heq. inversion Heq. subst. exact Hw.
Qed.

(** Once a valid value has been seen, forward fill leaves no gap. *)
Lemma ffill_from_Some w s :
  notna w = true -> Forall (fun x => notna x = true) (values (ffill_from (Some w) s)).
Proof.
  revert w. induction s as [|[l v] r IH]; intros w Hw; simpl; [constructor|].
  destruct (isna v) eqn:Hv; simpl.
  - constructor; [exact Hw | apply IH; exact Hw].
  - assert (Hn : notna v = true) by (unfold notna; rewrite Hv; reflexivity).
    constructor; [exact Hn | apply IH; exact Hn].
Qed.

(** Backward fill changes nothing where there is no gap. *)
Lemma bfill_no_gap s :
  Forall (fun x => notna x = true) (values s) -> bfill s = s.
Proof.
  induction s as [|[l v] r IH]; simpl; intros Hall; [reflexivity|].
  inversion Hall as [|? ? Hv Hr]; subst.
  unfold notna in Hv. destruct (isna v); [discriminate|].
  rewrite (IH Hr). reflexivity.
Qed.

(** Forward fill cannot reach a leading gap: the first valid value
    stays where it was. *)
Lemma first_valid_ffill s : first_valid (ffill s) = first_valid s.
Proof.
  unfold ffill. induction s as [|[l v] r IH]; simpl; [reflexivity|].
  unfold notna. destruct (isna v) eqn:Hv; simpl.
  - unfold notna. rewrite Hv. simpl. exact IH.
  - unfold notna. rewrite Hv. reflexivity.
Qed.

(** Forward fill then backward fill leaves no gap, provided the series
    holds a valid value at all. *)
Lemma bfill_ffill_notna s v :
  first_valid s = Some v ->
  Forall (fun x => notna x = true) (values (bfill (ffill s))).
Proof.
  unfold ffill. induction s as [|[l w] r IH]; simpl; [discriminate|].
  unfold notna at 1. destruct (isna w) eqn:Hw; simpl; intros Hfv.
  - rewrite Hw.
    pose proof (first_valid_ffill r) as Hff. unfold ffill in Hff.
    rewrite Hff, Hfv.
    constructor; [exact (first_valid_notna _ _ Hfv) | exact (IH Hfv)].
  - assert (Hn : notna w = true) by (unfold notna; rewrite Hw; reflexivity).
    rewrite Hw.
    rewrite (bfill_no_gap _ (ffill_from_Some w r Hn)).
    constructor; [exact Hn | exact (ffill_from_Some w r Hn)].
Qed.

(** The first stored value after both fills is the first valid value
    of the raw series. *)
Lemma bfill_ffill_head s v :
  first_valid s = Some v ->
  exists l rest, bfill (ffill s) = (l, v) :: rest.
Proof.
  unfold ffill. destruct s as [|[l w] r]; simpl; [discriminate|].
  unfold notna. destruct (isna w) eqn:Hw; simpl; intros Hfv.
  - rewrite Hw.
    pose proof (first_valid_ffill r) as Hff. unfold ffill in Hff.
    rewrite Hff, Hfv. eauto.
  - rewrite Hw. inversion Hfv. subst. eauto.
Qed.

Lemma first_valid_index_None s :
  first_valid_index s = None <-> first_valid s = None.
Proof.
  induction s as [|[l v] r IH]; simpl; [tauto|].
  destruct (notna v); [split; discriminate | exact IH].
Qed.

Lemma first_valid_index_In s l :
  first_valid_index s = Some l ->
  exists v, first_valid s = Some v /\ In (l, v) s.
Proof.
  induction s as [|[l' v'] r IH]; simpl; [discriminate|].
  destruct (notna v').
  - intros Heq. inversion Heq. subst. exists v'. split; [reflexivity | left; reflexivity].
  - intros Heq. destruct (IH Heq) as (v & Hv & Hin).
    exists v. split; [exact Hv | right; exact Hin].
Qed.

Context `{EqDecision L}.

Lemma filter_label_absent s l :
  ~ In l (index s) ->
  List.filter (fun x => bool_decide (fst x = l)) s = [].
Proof.
  induction s as [|[l' v'] r IH]; simpl; intros Hnin; [reflexivity|].
  rewrite bool_decide_eq_false_2 by (intros ->; apply Hnin; left; reflexivity).
  apply IH. intros Hin. apply Hnin. right. exact Hin.
Qed.

(** A label that occurs once is looked up as a scalar. *)
Lemma loc_unique s l v :
  List.NoDup (index s) -> In (l, v) s -> loc s l = Ok v.
Proof.
  unfold loc. induction s as [|[l' v'] r IH]; simpl; intros Hnd Hin; [contradiction|].
  inversion Hnd as [|? ? Hnin Hnd']; subst.
  destruct Hin as [Heq | Hin].
  - inversion Heq. subst.
    rewrite bool_decide_eq_true_2 by reflexivity.
    rewrite (filter_label_absent _ _ Hnin). reflexivity.
  - assert (Hne : l' <> l).
    { intros ->. apply Hnin. change l with (fst (l, v)). apply in_map. exact Hin. }
    rewrite bool_decide_eq_false_2 by exact Hne.
    apply IH; assumption.
Qed.

End SeriesFacts.

Section Frames.
Implicit Types (data : DataFrame) (y : Z).

Lemma increasing_sorted (l : list Timestamp) :
  increasing l = true -> StronglySorted Timestamp_lt l.
Proof.
  induction l as [|a r IH]; [constructor|].
  destruct r as [|b r'].
  - intros _. constructor; constructor.
  - intros Hinc. change (Timestamp_ltb a b && increasing (b :: r') = true) in Hinc.
    apply andb_true_iff in Hinc. destruct Hinc as [Hab Hr].
    specialize (IH Hr). constructor; [exact IH|].
    inversion IH as [|? ? _ Hall]; subst.
    constructor; [exact Hab|].
    eapply List.Forall_impl; [|exact Hall].
    intros c Hbc. eapply Timestamp_lt_trans; eassumption.
Qed.

Lemma sorted_increasing (l : list Timestamp) :
  StronglySorted Timestamp_lt l -> increasing l = true.
Proof.
  induction l as [|a r IH]; [reflexivity|].
  intros Hs. inversion Hs as [|? ? Hr Hall]; subst.
  destruct r as [|b r']; [reflexivity|].
  change (Timestamp_ltb a b && increasing (b :: r') = true).
  inversion Hall; subst. apply andb_true_iff. split; [assumption | exact (IH Hr)].
Qed.

Lemma sorted_filter (f : Timestamp * float -> bool) data :
  StronglySorted Timestamp_lt (index data) ->
  StronglySorted Timestamp_lt (index (List.filter f data)).
Proof.
  unfold index. induction data as [|[t v] r IH]; simpl; intros Hs; [constructor|].
  inversion Hs as [|? ? Hr Hall]; subst.
  destruct (f (t, v)); simpl; [|exact (IH Hr)].
  constructor; [exact (IH Hr)|].
  rewrite List.Forall_forall in Hall |- *.
  intros x Hx. apply Hall.
  apply in_map_iff in Hx. destruct Hx as (p & <- & Hp).
  apply List.filter_In in Hp. apply in_map. tauto.
Qed.

Lemma sorted_NoDup (l : list Timestamp) :
  StronglySorted Timestamp_lt l -> List.NoDup l.
Proof.
  induction 1 as [|a r Hr IH Hall]; constructor; [|exact IH].
  intros Hin. rewrite List.Forall_forall in Hall.
  exact (Timestamp_lt_irrefl a (Hall a Hin)).
Qed.

Lemma window_increasing data y :
  increasing (index data) = true ->
  increasing (index (year_window data y)) = true.
Proof.
  intros Hinc. apply sorted_increasing, sorted_filter, increasing_sorted, Hinc.
Qed.

Lemma window_NoDup data y :
  increasing (index data) = true -> List.NoDup (index (year_window data y)).
Proof.
  intros Hinc. apply sorted_NoDup, sorted_filter, increasing_sorted, Hinc.
Qed.

Lemma window_valid data y :
  forallb valid_date (index data) = true ->
  forallb valid_date (index (year_window data y)) = true.
Proof.
  unfold index, year_window.
  induction data as [|[t v] r IH]; simpl; intros Hv; [reflexivity|].
  apply andb_true_iff in Hv. destruct Hv as [Ht Hr].
  destruct (year t =? y); simpl; [rewrite Ht|]; auto.
Qed.

Lemma window_year data y t :
  In t (index (year_window data y)) -> year t = y.
Proof.
  unfold index, year_window. intros Hin.
  apply in_map_iff in Hin. destruct Hin as (p & <- & Hp).
  apply List.filter_In in Hp. destruct Hp as [_ Hy].
  apply Z.eqb_eq. exact Hy.
Qed.

Lemma index_filled data y : index (filled data y) = index (year_window data y).
Proof.
  unfold filled, ffill. rewrite index_bfill, index_ffill_from. reflexivity.
Qed.

Lemma length_filled data y : length (filled data y) = length (year_window data y).
Proof. rewrite <- !length_index, index_filled. reflexivity. Qed.

Lemma index_normalized_series data y :
  index (normalized_series data y) = map synthetic (index (year_window data y)).
Proof.
  unfold normalized_series, index at 1.
  rewrite index_filled.
  assert (Hlen : length (map synthetic (index (year_window data y)))
                 = length (map (percent_return (default nan (baseline data y)))
                               (values (filled data y)))).
  { rewrite !length_map. unfold index, values. rewrite !length_map.
    symmetry. apply length_filled. }
  revert Hlen.
  generalize (map synthetic (index (year_window data y))).
  generalize (map (percent_return (default nan (baseline data y)))
                  (values (filled data y))).
  intros vs idx. revert vs.
  induction idx as [|i idx IH]; intros [|v vs]; simpl; intros Hlen;
    try discriminate; [reflexivity|].
  f_equal. apply IH. lia.
Qed.

Lemma values_normalized_series data y :
  values (normalized_series data y)
  = map (percent_return (default nan (baseline data y))) (values (filled data y)).
Proof.
  unfold normalized_series, values at 1.
  assert (Hlen : length (map synthetic (index (filled data y)))
                 = length (map (percent_return (default nan (baseline data y)))
                               (values (filled data y)))).
  { rewrite !length_map. unfold index, values. rewrite !length_map. reflexivity. }
  revert Hlen.
  generalize (map synthetic (index (filled data y))).
  generalize (map (percent_return (default nan (baseline data y)))
                  (values (filled data y))).
  intros vs idx. revert vs.
  induction idx as [|i idx IH]; intros [|v vs]; simpl; intros Hlen;
    try discriminate; [reflexivity|].
  f_equal. apply IH. lia.
Qed.

Lemma length_normalized_series data y :
  length (normalized_series data y) = length (year_window data y).
Proof.
  rewrite <- (length_index (normalized_series data y)), index_normalized_series.
  rewrite length_map. apply length_index.
Qed.

(** One iteration of the loop on a well-formed frame. *)
Lemma process_year_closed data acc y :
  RawPriceSeries data = true ->
  process_year data acc y = Ok (store_year data acc y).
Proof.
  intros Hwf. apply andb_true_iff in Hwf. destruct Hwf as [Hvalid Hinc].
  unfold process_year, store_year, survives, baseline.
  destruct (5 <? length (year_window data y))%nat; simpl; [|reflexivity].
  destruct (first_valid_index (year_window data y)) as [idx|] eqn:Hidx.
  - destruct (first_valid_index_In _ _ Hidx) as (v & Hfv & Hin).
    rewrite Hfv.
    rewrite (loc_unique _ _ _ (window_NoDup data y Hinc) Hin). simpl.
    fold (filled data y).
    rewrite comprehension_common_year
      by (rewrite index_filled; apply window_valid; exact Hvalid).
    simpl. unfold Series_new.
    rewrite values_map_values, !length_map.
    unfold values, index. rewrite !length_map, Nat.eqb_refl.
    unfold normalized_series, baseline. rewrite Hfv. simpl.
    unfold values, index. reflexivity.
  - apply first_valid_index_None in Hidx. rewrite Hidx. reflexivity.
Qed.

End Frames.

Section Loop.
Variable data : DataFrame.
Hypothesis Hwf : RawPriceSeries data = true.

Lemma for_each_process_year years acc :
  for_each (process_year data) years acc = Ok (run_years data years acc).
Proof using Hwf.
  revert acc. induction years as [|y r IH]; intros acc; simpl; [reflexivity|].
  rewrite (process_year_closed data acc y Hwf). simpl. apply IH.
Qed.

Lemma process_annual_data_closed years :
  years <> [] ->
  process_annual_data (Some data) years
  = Ok (Some (run_years data years no_results)).
Proof using Hwf.
  intros Hne. unfold process_annual_data.
  destruct years as [|y r]; [contradiction|].
  rewrite for_each_process_year. reflexivity.
Qed.

End Loop.

Section LoopLookups.
Variable data : DataFrame.

Ltac lookup_after_loop :=
  let years := fresh "years" in
  let acc := fresh "acc" in
  let y := fresh "y" in
  let a := fresh "a" in
  let r := fresh "r" in
  let IH := fresh "IH" in
  intros years acc y; revert acc; unfold run_years;
  induction years as [|a r IH]; intros acc; simpl; [reflexivity|];
  rewrite IH; unfold store_year;
  destruct (Z.eqb_spec y a) as [->|Hne]; simpl;
  [ destruct (requested a r); simpl;
    destruct (survives data a); simpl;
    rewrite ?lookup_insert_eq; reflexivity
  | destruct (requested y r && survives data y); [reflexivity|];
    destruct (survives data a); simpl;
    [ rewrite lookup_insert_ne by congruence; reflexivity | reflexivity ] ].

Lemma normalized_run_years :
  forall years acc y,
    normalized (run_years data years acc) !! y
    = if requested y years && survives data y
      then Some (normalized_series data y)
      else normalized acc !! y.
Proof. lookup_after_loop. Qed.

Lemma original_run_years :
  forall years acc y,
    original (run_years data years acc) !! y
    = if requested y years && survives data y
      then Some (filled data y)
      else original acc !! y.
Proof. lookup_after_loop. Qed.

Lemma dates_run_years :
  forall years acc y,
    dates (run_years data years acc) !! y
    = if requested y years && survives data y
      then Some (index (filled data y))
      else dates acc !! y.
Proof. lookup_after_loop. Qed.

End LoopLookups.

Lemma requested_In y years : requested y years = true <-> In y years.
Proof.
  unfold requested. rewrite existsb_exists. split.
  - intros (x & Hin & Heq). apply Z.eqb_eq in Heq. subst. exact Hin.
  - intros Hin. exists y. split; [exact Hin | apply Z.eqb_refl].
Qed.

Section FloatFacts.

Lemma div_eucl_shift (m : positive) :
  Z.div_eucl (Z.shiftl (Z.pos m) 53) (Z.pos m) = (2 ^ 53, 0).
Proof.
  rewrite Z.shiftl_mul_pow2 by lia.
  pose proof (Z.div_mul (2 ^ 53) (Z.pos m) ltac:(lia)) as Hq.
  pose proof (Z.mod_mul (2 ^ 53) (Z.pos m) ltac:(lia)) as Hr.
  unfold Z.div, Z.modulo in Hq, Hr.
  rewrite (Z.mul_comm (Z.pos m)).
  destruct (Z.div_eucl (2 ^ 53 * Z.pos m) (Z.pos m)) as [q r].
  simpl in Hq, Hr. subst. reflexivity.
Qed.

(** A finite non-zero number divided by itself is exactly 1. *)
Lemma fdiv_self s m e :
  fdiv (S754_finite s m e) (S754_finite s m e) = float_of_Z 1.
Proof.
  unfold fdiv, SFdiv, SFdiv_core_binary.
  rewrite !Z.sub_diag.
  change (Z.min (fexp prec emax 0) 0) with (-53).
  change (0 - -53) with 53.
  cbv beta iota zeta.
  rewrite div_eucl_shift.
  assert (Hloc : new_location (Z.pos m) 0 = loc_Exact).
  { unfold new_location. destruct (Z.even (Z.pos m)); reflexivity. }
  rewrite Hloc. destruct s; vm_compute; reflexivity.
Qed.

(** The return of the baseline against itself: 0.0 for a finite
    non-zero baseline, NaN for a zero or an infinite one. *)
Lemma percent_return_self b :
  percent_return b b = if finite_nonzero b then S754_zero false else nan.
Proof.
  destruct b as [s|s| |s m e]; simpl.
  - destruct s; reflexivity.
  - destruct s; reflexivity.
  - reflexivity.
  - unfold percent_return. rewrite fdiv_self. reflexivity.
Qed.

End FloatFacts.

Section PipelineOutput.
Variables (data : DataFrame) (years : list Z).

Lemma normalized_output y s :
  normalized (run_years data years no_results) !! y = Some s ->
  requested y years = true /\ survives data y = true
  /\ s = normalized_series data y.
Proof.
  rewrite normalized_run_years.
  destruct (requested y years); simpl; [|discriminate].
  destruct (survives data y); simpl; [|discriminate].
  intros Heq. inversion Heq. auto.
Qed.

Lemma original_output y o :
  original (run_years data years no_results) !! y = Some o ->
  requested y years = true /\ survives data y = true /\ o = filled data y.
Proof.
  rewrite original_run_years.
  destruct (requested y years); simpl; [|discriminate].
  destruct (survives data y); simpl; [|discriminate].
  intros Heq. inversion Heq. auto.
Qed.

Lemma dates_output y ds :
  dates (run_years data years no_results) !! y = Some ds ->
  requested y years = true /\ survives data y = true
  /\ ds = index (year_window data y).
Proof.
  rewrite dates_run_years.
  destruct (requested y years); simpl; [|discriminate].
  destruct (survives data y); simpl; [|discriminate].
  intros Heq. inversion Heq. rewrite index_filled. auto.
Qed.

Lemma output_of_survivor y :
  requested y years = true -> survives data y = true ->
  normalized (run_years data years no_results) !! y = Some (normalized_series data y)
  /\ original (run_years data years no_results) !! y = Some (filled data y)
  /\ dates (run_years data years no_results) !! y = Some (index (year_window data y)).
Proof.
  intros Hr Hs.
  rewrite normalized_run_years, original_run_years, dates_run_years, Hr, Hs.
  rewrite index_filled. auto.
Qed.

End PipelineOutput.

Lemma survives_spec data y :
  survives data y = true <->
  (5 < length (year_window data y))%nat
  /\ exists b, first_valid (year_window data y) = Some b.
Proof.
  unfold survives, baseline. rewrite andb_true_iff, Nat.ltb_lt.
  destruct (first_valid (year_window data y)) as [b|].
  - split; intros [Hlen _]; split; eauto.
  - split; [intros [_ Hf]; discriminate | intros [_ [b Hb]]; discriminate].
Qed.

(** A series holds a valid value exactly when one of its rows is not NaN. *)
Lemma first_valid_exists {L : Type} (s : Series L) :
  (exists b, first_valid s = Some b) <->
  (exists l v, In (l, v) s /\ isna v = false).
Proof.
  induction s as [|[l v] r IH]; simpl.
  - split; [intros [b Hb]; discriminate | intros (l & v & [] & _)].
  - unfold notna. destruct (isna v) eqn:Hv; simpl.
    + rewrite IH. split.
      * intros (l' & v' & Hin & Hv'). exists l', v'. auto.
      * intros (l' & v' & [Heq | Hin] & Hv').
        -- inversion Heq. subst. congruence.
        -- exists l', v'. auto.
    + split; [|eauto]. intros _. exists l, v. auto.
Qed.

Lemma increasing_synthetic (l : list Timestamp) y :
  (forall t, In t l -> year t = y) ->
  increasing l = true -> increasing (map synthetic l) = true.
Proof.
  induction l as [|a r IH]; [reflexivity|].
  destruct r as [|b r']; [reflexivity|].
  intros Hy Hinc.
  change (Timestamp_ltb a b && increasing (b :: r') = true) in Hinc.
  change (Timestamp_ltb (synthetic a) (synthetic b)
          && increasing (map synthetic (b :: r')) = true).
  apply andb_true_iff in Hinc. destruct Hinc as [Hab Hr].
  apply andb_true_iff. split.
  - rewrite synthetic_ltb; [exact Hab|].
    rewrite (Hy a), (Hy b); simpl; auto.
  - apply IH; [|exact Hr]. intros t Ht. apply Hy. right. exact Ht.
Qed.

(* ------------------------------------------------------------------ *)
(** * Properties of the specification *)

(** C1, as stated, fails on the three-bar scenario: a window of three
    bars does not pass the more-than-five filter, so 2021 has no
    normalized series at all (and hence not the series 0, 10, 21); and
    in binary64 the returns of 110 and 121 against 100 are not 10 and
    21. *)
Lemma three_day_scenario_dropped :
  ~ (exists (res : AnnualResults) (s : Series Timestamp),
        process_annual_data (Some three_day_frame) [2021] = Ok (Some res)
        /\ normalized res !! 2021 = Some s
        /\ values s = [float_of_Z 0; float_of_Z 10; float_of_Z 21])
  /\ percent_return (float_of_Z 100) (float_of_Z 110) <> float_of_Z 10
  /\ percent_return (float_of_Z 100) (float_of_Z 121) <> float_of_Z 21.
Proof.
  split; [|split; vm_compute; discriminate].
  intros (res & s & Hrun & Hs & _).
  vm_compute in Hrun. inversion Hrun. subst res.
  vm_compute in Hs. discriminate.
Qed.

(** C1 (amended). On a well-formed frame every year that is in the
    output has [normalized[i] = (filled[i] / baseline - 1) * 100] at
    every position, in binary64 arithmetic, the baseline being the first
    non-missing close of the year window. The three-bar scenario
    is dropped (no series, no summary). On its closes the formula with
    baseline 100 gives 0.0, 10.000000000000009 and 20.999999999999996,
    printed 0.00, 10.00 and 21.00. With three more bars at 121 the year
    is kept, its baseline is 100, its series starts with those three
    values and its summary is (121, 20.999999999999996), shown as
    121.00 and 21.00. *)
Theorem normalized_is_percent_return :
  (forall (data : DataFrame) (years : list Z),
      RawPriceSeries data = true -> years <> [] ->
      exists res,
        process_annual_data (Some data) years = Ok (Some res)
        /\ forall y s,
            normalized res !! y = Some s ->
            exists o b,
              original res !! y = Some o
              /\ first_valid (year_window data y) = Some b
              /\ values s
                 = map (fun v => fmul (fsub (fdiv v b) (float_of_Z 1)) (float_of_Z 100))
                       (values o))
  /\ process_annual_data (Some three_day_frame) [2021] = Ok (Some no_results)
  /\ create_summary_table (R := AsciiRendering.rendering)
       (normalized no_results) (original no_results) [2021]
     = Ok None
  /\ map (percent_return (float_of_Z 100)) (values three_day_frame)
     = [S754_zero false; f10_000000000000009; f20_999999999999996]
  /\ map AsciiRendering.two_decimals
         (map (percent_return (float_of_Z 100)) (values three_day_frame))
     = ["0.00"; "10.00"; "21.00"]%string
  /\ exists (res : AnnualResults) (s : Series Timestamp),
      process_annual_data (Some six_day_frame) [2021] = Ok (Some res)
      /\ first_valid (year_window six_day_frame 2021) = Some (float_of_Z 100)
      /\ normalized res !! 2021 = Some s
      /\ values s
         = [S754_zero false; f10_000000000000009; f20_999999999999996;
            f20_999999999999996; f20_999999999999996; f20_999999999999996]
      /\ year_end (normalized res) (original res) [2021]
         = Ok ([(2021, f20_999999999999996)], [(2021, float_of_Z 121)])
      /\ create_summary_table (R := AsciiRendering.rendering)
           (normalized res) (original res) [2021]
         = Ok (Some (mkSummaryTable [2021] ["121.00"%string] ["21.00"%string])).
Proof.
  split; [|split; [|split; [|split; [|split]]]].
  - intros data years Hwf Hne.
    exists (run_years data years no_results).
    split; [apply process_annual_data_closed; assumption|].
    intros y s Hs.
    apply normalized_output in Hs. destruct Hs as (Hreq & Hsurv & ->).
    destruct (proj1 (survives_spec data y) Hsurv) as (_ & b & Hb).
    exists (filled data y), b.
    split; [apply (output_of_survivor data years y Hreq Hsurv)|].
    split; [exact Hb|].
    rewrite values_normalized_series. unfold baseline. rewrite Hb. reflexivity.
  - vm_compute. reflexivity.
  - vm_compute. reflexivity.
  - vm_compute. reflexivity.
  - vm_compute. reflexivity.
  - eexists. eexists.
    split; [vm_compute; reflexivity|].
    split; [vm_compute; reflexivity|].
    split; [vm_compute; reflexivity|].
    split; [vm_compute; reflexivity|].
    split; vm_compute; reflexivity.
Qed.

Lemma normalized_is_percent_return_witness :
  RawPriceSeries gap_frame = true /\ [2020] <> [] /\
  exists res,
    process_annual_data (Some gap_frame) [2020] = Ok (Some res)
    /\ forall y s,
        normalized res !! y = Some s ->
        exists o b,
          original res !! y = Some o
          /\ first_valid (year_window gap_frame y) = Some b
          /\ values s
             = map (fun v => fmul (fsub (fdiv v b) (float_of_Z 1)) (float_of_Z 100))
                   (values o).
Proof.
  split; [reflexivity|]. split; [discriminate|].
  apply (proj1 normalized_is_percent_return gap_frame [2020]);
    [reflexivity | discriminate].
Defined.

(** C2. On a well-formed frame, every year that appears in any of the
    three output dicts appears in all three, and its filled original
    values, normalized values, true dates and synthetic dates have one
    length and describe the same bars position by position: the original
    series is indexed by the true dates and the normalized series by
    their synthetic images. *)
Theorem aligned_views_same_length (data : DataFrame) (years : list Z) :
  RawPriceSeries data = true -> years <> [] ->
  exists res,
    process_annual_data (Some data) years = Ok (Some res)
    /\ forall y,
        is_Some (normalized res !! y) \/ is_Some (original res !! y)
        \/ is_Some (dates res !! y) ->
        exists s o ds,
          normalized res !! y = Some s
          /\ original res !! y = Some o
          /\ dates res !! y = Some ds
          /\ length (values o) = length (values s)
          /\ length (values s) = length ds
          /\ length (index s) = length ds
          /\ index o = ds
          /\ index s = map synthetic ds.
Proof.
  intros Hwf Hne.
  exists (run_years data years no_results).
  split; [apply process_annual_data_closed; assumption|].
  intros y Hy.
  assert (Hrs : requested y years = true /\ survives data y = true).
  { destruct Hy as [[s Hs] | [[o Ho] | [ds Hds]]].
    - apply normalized_output in Hs. tauto.
    - apply original_output in Ho. tauto.
    - apply dates_output in Hds. tauto. }
  destruct Hrs as [Hreq Hsurv].
  destruct (output_of_survivor data years y Hreq Hsurv) as (Hn & Ho & Hd).
  exists (normalized_series data y), (filled data y), (index (year_window data y)).
  split; [exact Hn|]. split; [exact Ho|]. split; [exact Hd|].
  rewrite !length_values, !length_index, length_filled, length_normalized_series.
  rewrite index_filled, index_normalized_series.
  repeat split; reflexivity.
Qed.

Lemma aligned_views_same_length_witness :
  RawPriceSeries gap_frame = true /\ [2020] <> [] /\
  exists res,
    process_annual_data (Some gap_frame) [2020] = Ok (Some res)
    /\ forall y,
        is_Some (normalized res !! y) \/ is_Some (original res !! y)
        \/ is_Some (dates res !! y) ->
        exists s o ds,
          normalized res !! y = Some s
          /\ original res !! y = Some o
          /\ dates res !! y = Some ds
          /\ length (values o) = length (values s)
          /\ length (values s) = length ds
          /\ length (index s) = length ds
          /\ index o = ds
          /\ index s = map synthetic ds.
Proof.
  split; [reflexivity|]. split; [discriminate|].
  apply (aligned_views_same_length gap_frame [2020]); [reflexivity | discriminate].
Defined.

Lemma notna_isna (x : float) : notna x = true <-> isna x = false.
Proof. unfold notna. destruct (isna x); simpl; split; congruence. Qed.

(** C4. Forward fill followed by backward fill removes every gap of a
    series that holds at least one non-missing value, wherever the gaps
    are. On a well-formed frame, every selected year whose window has
    more than 5 bars and at least one non-missing close gets an original
    series, and it is exactly the year window filled forward, then
    backward, over its whole length, with no missing entry left; and
    nothing else is ever stored as an original series. *)
Theorem stored_original_has_no_gap :
  (forall (s : Series Timestamp) (b : float),
      first_valid s = Some b ->
      Forall (fun v => isna v = false) (values (bfill (ffill s))))
  /\ forall (data : DataFrame) (years : list Z),
      RawPriceSeries data = true -> years <> [] ->
      let filled_window := fun (y : Z) (o : Series Timestamp) =>
        o = bfill (ffill (year_window data y))
        /\ index o = index (year_window data y)
        /\ Forall (fun v => isna v = false) (values o) in
      exists res,
        process_annual_data (Some data) years = Ok (Some res)
        /\ (forall y,
               In y years ->
               (5 < length (year_window data y))%nat ->
               (exists t v, In (t, v) (year_window data y) /\ isna v = false) ->
               exists o, original res !! y = Some o /\ filled_window y o)
        /\ (forall y o, original res !! y = Some o -> filled_window y o).
Proof.
  assert (Hfill : forall (s : Series Timestamp) (b : float),
             first_valid s = Some b ->
             Forall (fun v => isna v = false) (values (bfill (ffill s)))).
  { intros s b Hb. eapply List.Forall_impl; [|exact (bfill_ffill_notna s b Hb)].
    intros v Hv. apply notna_isna. exact Hv. }
  split; [exact Hfill|].
  intros data years Hwf Hne filled_window. subst filled_window. cbv beta.
  assert (Hok : forall y, survives data y = true ->
                  filled data y = bfill (ffill (year_window data y))
                  /\ index (filled data y) = index (year_window data y)
                  /\ Forall (fun v => isna v = false) (values (filled data y))).
  { intros y Hsurv.
    destruct (proj1 (survives_spec data y) Hsurv) as (_ & b & Hb).
    split; [reflexivity|]. split; [apply index_filled|].
    exact (Hfill _ b Hb). }
  exists (run_years data years no_results).
  split; [apply process_annual_data_closed; assumption|].
  split.
  - intros y Hy Hlen Hvalid.
    assert (Hsurv : survives data y = true)
      by (apply survives_spec; split;
          [assumption | apply first_valid_exists; assumption]).
    apply requested_In in Hy.
    exists (filled data y).
    split; [apply (output_of_survivor data years y Hy Hsurv) | exact (Hok y Hsurv)].
  - intros y o Ho.
    apply original_output in Ho. destruct Ho as (_ & Hsurv & ->).
    exact (Hok y Hsurv).
Qed.

Lemma stored_original_has_no_gap_witness :
  first_valid (year_window gap_frame 2020) = Some (float_of_Z 50)
  /\ Forall (fun v => isna v = false)
       (values (bfill (ffill (year_window gap_frame 2020))))
  /\ RawPriceSeries gap_frame = true /\ [2020] <> []
  /\ let filled_window := fun (y : Z) (o : Series Timestamp) =>
       o = bfill (ffill (year_window gap_frame y))
       /\ index o = index (year_window gap_frame y)
       /\ Forall (fun v => isna v = false) (values o) in
     exists res,
       process_annual_data (Some gap_frame) [2020] = Ok (Some res)
       /\ (forall y,
              In y [2020] ->
              (5 < length (year_window gap_frame y))%nat ->
              (exists t v, In (t, v) (year_window gap_frame y) /\ isna v = false) ->
              exists o, original res !! y = Some o /\ filled_window y o)
       /\ (forall y o, original res !! y = Some o -> filled_window y o).
Proof.
  split; [reflexivity|].
  split; [apply (proj1 stored_original_has_no_gap _ (float_of_Z 50)); reflexivity|].
  split; [reflexivity|]. split; [discriminate|].
  apply (proj2 stored_original_has_no_gap gap_frame [2020]);
    [reflexivity | discriminate].
Defined.

(** The gaps of the example window, filled. *)
Example gap_frame_filled :
  values (bfill (ffill (year_window gap_frame 2020)))
  = map float_of_Z [50; 50; 50; 50; 60; 60].
Proof. vm_compute. reflexivity. Qed.

(** C6. On a well-formed frame, every selected year whose window has
    more than 5 bars and at least one non-missing close gets a
    normalized series and a dates entry; the dates entry is the index of
    the year window; the synthetic date at each position is the true
    date of that position with its month and day kept and its year set
    to 2000; the true dates are strictly increasing, so are the
    synthetic dates, and any two positions compare the same way on both
    axes. Nothing else is ever stored as a normalized series. *)
Theorem synthetic_dates_keep_order (data : DataFrame) (years : list Z) :
  RawPriceSeries data = true -> years <> [] ->
  let mapped := fun (y : Z) (s : Series Timestamp) (ds : list Timestamp) =>
    ds = index (year_window data y)
    /\ length (index s) = length ds
    /\ (forall i t,
           nth_error ds i = Some t ->
           nth_error (index s) i = Some (mkTimestamp 2000 (month t) (day t)))
    /\ increasing ds = true
    /\ increasing (index s) = true
    /\ (forall i j a b a' b',
           nth_error ds i = Some a -> nth_error ds j = Some b ->
           nth_error (index s) i = Some a' ->
           nth_error (index s) j = Some b' ->
           Timestamp_ltb a' b' = Timestamp_ltb a b) in
  exists res,
    process_annual_data (Some data) years = Ok (Some res)
    /\ (forall y,
           In y years ->
           (5 < length (year_window data y))%nat ->
           (exists t v, In (t, v) (year_window data y) /\ isna v = false) ->
           exists s ds,
             normalized res !! y = Some s /\ dates res !! y = Some ds
             /\ mapped y s ds)
    /\ (forall y s,
           normalized res !! y = Some s ->
           exists ds, dates res !! y = Some ds /\ mapped y s ds).
Proof.
  intros Hwf Hne mapped. subst mapped. cbv beta.
  assert (Hinc : increasing (index data) = true)
    by (apply andb_true_iff in Hwf; destruct Hwf; assumption).
  assert (Hok : forall y,
             index (year_window data y) = index (year_window data y)
             /\ length (index (normalized_series data y))
                = length (index (year_window data y))
             /\ (forall i t,
                    nth_error (index (year_window data y)) i = Some t ->
                    nth_error (index (normalized_series data y)) i
                    = Some (mkTimestamp 2000 (month t) (day t)))
             /\ increasing (index (year_window data y)) = true
             /\ increasing (index (normalized_series data y)) = true
             /\ (forall i j a b a' b',
                    nth_error (index (year_window data y)) i = Some a ->
                    nth_error (index (year_window data y)) j = Some b ->
                    nth_error (index (normalized_series data y)) i = Some a' ->
                    nth_error (index (normalized_series data y)) j = Some b' ->
                    Timestamp_ltb a' b' = Timestamp_ltb a b)).
  { intros y. rewrite index_normalized_series.
    assert (Hpos : forall i t,
               nth_error (index (year_window data y)) i = Some t ->
               nth_error (map synthetic (index (year_window data y))) i
               = Some (synthetic t)).
    { intros i t Ht. rewrite nth_error_map, Ht. reflexivity. }
    split; [reflexivity|].
    split; [apply length_map|].
    split; [exact Hpos|].
    split; [apply window_increasing; exact Hinc|].
    split.
    - apply (increasing_synthetic _ y); [apply window_year|].
      apply window_increasing. exact Hinc.
    - intros i j a b a' b' Ha Hb Ha' Hb'.
      rewrite (Hpos _ _ Ha) in Ha'. rewrite (Hpos _ _ Hb) in Hb'.
      inversion Ha'. inversion Hb'. subst a' b'.
      apply synthetic_ltb.
      rewrite (window_year data y a), (window_year data y b);
        [reflexivity | eapply nth_error_In; eassumption
                     | eapply nth_error_In; eassumption]. }
  exists (run_years data years no_results).
  split; [apply process_annual_data_closed; assumption|].
  split.
  - intros y Hy Hlen Hvalid.
    assert (Hsurv : survives data y = true)
      by (apply survives_spec; split;
          [assumption | apply first_valid_exists; assumption]).
    apply requested_In in Hy.
    destruct (output_of_survivor data years y Hy Hsurv) as (Hn & _ & Hd).
    exists (normalized_series data y), (index (year_window data y)).
    split; [exact Hn|]. split; [exact Hd|]. exact (Hok y).
  - intros y s Hs.
    apply normalized_output in Hs. destruct Hs as (Hreq & Hsurv & ->).
    destruct (output_of_survivor data years y Hreq Hsurv) as (_ & _ & Hd).
    exists (index (year_window data y)).
    split; [exact Hd | exact (Hok y)].
Qed.

Lemma synthetic_dates_keep_order_witness :
  RawPriceSeries gap_frame = true /\ [2020] <> [] /\
  let mapped := fun (y : Z) (s : Series Timestamp) (ds : list Timestamp) =>
    ds = index (year_window gap_frame y)
    /\ length (index s) = length ds
    /\ (forall i t,
           nth_error ds i = Some t ->
           nth_error (index s) i = Some (mkTimestamp 2000 (month t) (day t)))
    /\ increasing ds = true
    /\ increasing (index s) = true
    /\ (forall i j a b a' b',
           nth_error ds i = Some a -> nth_error ds j = Some b ->
           nth_error (index s) i = Some a' ->
           nth_error (index s) j = Some b' ->
           Timestamp_ltb a' b' = Timestamp_ltb a b) in
  exists res,
    process_annual_data (Some gap_frame) [2020] = Ok (Some res)
    /\ (forall y,
           In y [2020] ->
           (5 < length (year_window gap_frame y))%nat ->
           (exists t v, In (t, v) (year_window gap_frame y) /\ isna v = false) ->
           exists s ds,
             normalized res !! y = Some s /\ dates res !! y = Some ds
             /\ mapped y s ds)
    /\ (forall y s,
           normalized res !! y = Some s ->
           exists ds, dates res !! y = Some ds /\ mapped y s ds).
Proof.
  split; [reflexivity|]. split; [discriminate|].
  apply (synthetic_dates_keep_order gap_frame [2020]); [reflexivity | discriminate].
Defined.

Lemma NoDup_synthetic (ds : list Timestamp) (y : Z) :
  (forall t, In t ds -> year t = y) ->
  List.NoDup ds -> List.NoDup (map synthetic ds).
Proof.
  induction ds as [|a r IH]; simpl; intros Hy Hnd; [constructor|].
  inversion Hnd as [|? ? Hnin Hr]; subst.
  constructor.
  - intros Hin. apply in_map_iff in Hin. destruct Hin as (b & Heq & Hb).
    apply synthetic_inj in Heq.
    + subst b. exact (Hnin Hb).
    + rewrite (Hy a), (Hy b); auto.
  - apply IH; [|exact Hr]. intros t Ht. apply Hy. right. exact Ht.
Qed.

(** C7. Distinct dates of one calendar year have distinct synthetic
    dates; February 29 is mapped to 2000-02-29 without an exception, the
    reference year being a leap year; and on a well-formed frame no two
    positions of a year's normalized series carry the same synthetic
    date. *)
Theorem synthetic_axis_injective :
  (forall (ds : list Timestamp) (y : Z),
      (forall t, In t ds -> year t = y) ->
      List.NoDup ds -> List.NoDup (map synthetic ds))
  /\ common_year (mkTimestamp 2020 2 29) = Ok (mkTimestamp 2000 2 29)
  /\ forall (data : DataFrame) (years : list Z),
      RawPriceSeries data = true -> years <> [] ->
      exists res,
        process_annual_data (Some data) years = Ok (Some res)
        /\ forall y s,
            normalized res !! y = Some s ->
            forall i j a b,
              nth_error (index s) i = Some a ->
              nth_error (index s) j = Some b ->
              i <> j -> a <> b.
Proof.
  split; [exact NoDup_synthetic|].
  split; [reflexivity|].
  intros data years Hwf Hne.
  exists (run_years data years no_results).
  split; [apply process_annual_data_closed; assumption|].
  intros y s Hs i j a b Ha Hb Hij Hab.
  apply normalized_output in Hs. destruct Hs as (_ & _ & ->).
  apply andb_true_iff in Hwf. destruct Hwf as [_ Hinc].
  assert (Hnd : List.NoDup (index (normalized_series data y))).
  { rewrite index_normalized_series.
    apply (NoDup_synthetic _ y); [apply window_year | apply window_NoDup, Hinc]. }
  subst b. apply Hij.
  rewrite List.NoDup_nth_error in Hnd.
  apply Hnd; [|congruence].
  apply nth_error_Some. congruence.
Qed.

Lemma synthetic_axis_injective_witness :
  RawPriceSeries gap_frame = true /\ [2020] <> [] /\
  exists res,
    process_annual_data (Some gap_frame) [2020] = Ok (Some res)
    /\ forall y s,
        normalized res !! y = Some s ->
        forall i j a b,
          nth_error (index s) i = Some a ->
          nth_error (index s) j = Some b ->
          i <> j -> a <> b.
Proof.
  split; [reflexivity|]. split; [discriminate|].
  apply (proj2 (proj2 synthetic_axis_injective) gap_frame [2020]);
    [reflexivity | discriminate].
Defined.

(** The synthetic dates of the example window, February 29 included. *)
Example gap_frame_synthetic :
  comprehension common_year (index (year_window gap_frame 2020))
  = Ok [mkTimestamp 2000 2 26; mkTimestamp 2000 2 27; mkTimestamp 2000 2 28;
        mkTimestamp 2000 2 29; mkTimestamp 2000 3 1; mkTimestamp 2000 3 2].
Proof. vm_compute. reflexivity. Qed.

(** C10, as stated, fails when the first non-missing close is 0: the
    window survives, its baseline is 0, and the first normalized value
    is 0/0 carried through the formula, a NaN and not 0.0. *)
Lemma zero_baseline_first_value_is_nan :
  exists (res : AnnualResults) (s : Series Timestamp),
    process_annual_data (Some zero_frame) [2021] = Ok (Some res)
    /\ first_valid (year_window zero_frame 2021) = Some (float_of_Z 0)
    /\ normalized res !! 2021 = Some s
    /\ head (values s) = Some nan
    /\ head (values s) <> Some (float_of_Z 0).
Proof.
  eexists. eexists.
  split; [vm_compute; reflexivity|].
  split; [vm_compute; reflexivity|].
  split; [vm_compute; reflexivity|].
  split; [vm_compute; reflexivity|].
  vm_compute. discriminate.
Qed.

(** C10 (amended). On a well-formed frame, for every year of the
    output the filled value at position 0 is the baseline (the first
    non-missing close of the window), also when the first raw close was
    missing; the first normalized value is the return of the baseline
    against itself, which is 0.0 whenever the baseline is finite and not
    zero, and NaN otherwise. *)
Theorem first_point_is_baseline (data : DataFrame) (years : list Z) :
  RawPriceSeries data = true -> years <> [] ->
  exists res,
    process_annual_data (Some data) years = Ok (Some res)
    /\ forall y s,
        normalized res !! y = Some s ->
        exists o b,
          original res !! y = Some o
          /\ first_valid (year_window data y) = Some b
          /\ head (values o) = Some b
          /\ head (values s)
             = Some (fmul (fsub (fdiv b b) (float_of_Z 1)) (float_of_Z 100))
          /\ head (values s)
             = Some (if finite_nonzero b then S754_zero false else nan).
Proof.
  intros Hwf Hne.
  exists (run_years data years no_results).
  split; [apply process_annual_data_closed; assumption|].
  intros y s Hs.
  apply normalized_output in Hs. destruct Hs as (Hreq & Hsurv & ->).
  destruct (proj1 (survives_spec data y) Hsurv) as (_ & b & Hb).
  exists (filled data y), b.
  split; [apply (output_of_survivor data years y Hreq Hsurv)|].
  split; [exact Hb|].
  rewrite values_normalized_series. unfold baseline. rewrite Hb. simpl.
  destruct (bfill_ffill_head _ _ Hb) as (l & rest & Hhead).
  unfold filled. rewrite Hhead. simpl.
  split; [reflexivity|]. split; [reflexivity|].
  rewrite percent_return_self. reflexivity.
Qed.

Lemma first_point_is_baseline_witness :
  RawPriceSeries gap_frame = true /\ [2020] <> [] /\
  exists res,
    process_annual_data (Some gap_frame) [2020] = Ok (Some res)
    /\ forall y s,
        normalized res !! y = Some s ->
        exists o b,
          original res !! y = Some o
          /\ first_valid (year_window gap_frame y) = Some b
          /\ head (values o) = Some b
          /\ head (values s)
             = Some (fmul (fsub (fdiv b b) (float_of_Z 1)) (float_of_Z 100))
          /\ head (values s)
             = Some (if finite_nonzero b then S754_zero false else nan).
Proof.
  split; [reflexivity|]. split; [discriminate|].
  apply (first_point_is_baseline gap_frame [2020]); [reflexivity | discriminate].
Defined.

Section Summary.
Context {R : Rendering}.
Variables annual_data annual_original : gmap Z (Series Timestamp).

Lemma iloc_last_nonempty (s : Series Timestamp) :
  s <> [] -> iloc_last s = Ok (List.last (values s) nan).
Proof.
  intros Hne. unfold iloc_last.
  destruct s as [|p r]; [contradiction|].
  unfold iloc, values.
  induction r as [|q r IH] in p |- *.
  - destruct p. reflexivity.
  - specialize (IH q). simpl in IH |- *.
    rewrite Nat.sub_0_r in IH. exact IH.
Qed.

Lemma odict_set_map (f : Z -> float) y ks :
  odict_set y (f y) (map (fun k => (k, f k)) ks)
  = map (fun k => (k, f k)) (add_key y ks).
Proof.
  unfold add_key. induction ks as [|k r IH]; simpl; [reflexivity|].
  rewrite (Z.eqb_sym y k).
  destruct (Z.eqb_spec k y) as [->|Hne]; simpl; [reflexivity|].
  rewrite IH. destruct (existsb (Z.eqb y) r); reflexivity.
Qed.

Lemma summary_step_closed y ks :
  implb (has_data annual_data y) (has_data annual_original y) = true ->
  summary_step annual_data annual_original
    (map (fun k => (k, last_value annual_data k)) ks,
     map (fun k => (k, last_value annual_original k)) ks) y
  = Ok (map (fun k => (k, last_value annual_data k))
            (if has_data annual_data y then add_key y ks else ks),
        map (fun k => (k, last_value annual_original k))
            (if has_data annual_data y then add_key y ks else ks)).
Proof.
  unfold summary_step, has_data, getitem.
  destruct (annual_data !! y) as [[|p s]|] eqn:Hd; [reflexivity| |reflexivity].
  destruct (annual_original !! y) as [[|q o]|] eqn:Ho;
    cbn [implb]; try discriminate.
  intros _.
  rewrite (iloc_last_nonempty (p :: s)) by discriminate.
  cbn [mbind outcome_bind fst snd].
  rewrite (iloc_last_nonempty (q :: o)) by discriminate.
  cbn [mbind outcome_bind fst snd].
  rewrite <- (odict_set_map (last_value annual_data)).
  rewrite <- (odict_set_map (last_value annual_original)).
  unfold last_value. rewrite Hd, Ho. reflexivity.
Qed.

Lemma year_end_from years ks :
  coherent annual_data annual_original years = true ->
  for_each (summary_step annual_data annual_original) years
    (map (fun k => (k, last_value annual_data k)) ks,
     map (fun k => (k, last_value annual_original k)) ks)
  = Ok (map (fun k => (k, last_value annual_data k))
            (shown_years annual_data years ks),
        map (fun k => (k, last_value annual_original k))
            (shown_years annual_data years ks)).
Proof.
  unfold coherent, shown_years.
  revert ks. induction years as [|y r IH]; intros ks; simpl; [reflexivity|].
  intros Hc. apply andb_true_iff in Hc. destruct Hc as [Hy Hr].
  rewrite (summary_step_closed y ks Hy).
  cbn [mbind outcome_bind]. apply IH. exact Hr.
Qed.

Lemma year_end_closed years :
  coherent annual_data annual_original years = true ->
  year_end annual_data annual_original years
  = Ok (map (fun k => (k, last_value annual_data k))
            (shown_years annual_data years []),
        map (fun k => (k, last_value annual_original k))
            (shown_years annual_data years [])).
Proof. intros Hc. unfold year_end. exact (year_end_from years [] Hc). Qed.

Lemma create_summary_table_closed years :
  coherent annual_data annual_original years = true ->
  create_summary_table annual_data annual_original years
  = Ok (match shown_years annual_data years [] with
        | [] => None
        | ks =>
            Some (mkSummaryTable ks
                    (map (fun k => fmt_2f (last_value annual_original k)) ks)
                    (map (fun k => fmt_2f (last_value annual_data k)) ks))
        end).
Proof.
  intros Hc. unfold create_summary_table.
  rewrite (year_end_closed years Hc). cbn [mbind outcome_bind].
  destruct (shown_years annual_data years []) as [|k ks]; [reflexivity|].
  unfold SummaryTable_new, odict_keys, odict_values.
  cbn [map fst snd length]. rewrite !map_map, !length_map, !Nat.eqb_refl.
  cbn [andb mbind outcome_bind fst snd].
  rewrite (map_ext (fun x : Z => x) id) by reflexivity. rewrite map_id.
  reflexivity.
Qed.

End Summary.

Section ShownYears.
Variable annual_data : gmap Z (Series Timestamp).

Lemma In_add_key y z ks : In z (add_key y ks) <-> In z ks \/ z = y.
Proof.
  unfold add_key. destruct (existsb (Z.eqb y) ks) eqn:Hex.
  - apply existsb_exists in Hex. destruct Hex as (x & Hx & Heq).
    apply Z.eqb_eq in Heq. subst x.
    split; [auto | intros [H | ->]; assumption].
  - rewrite in_app_iff. simpl. split.
    + intros [H | [<- | []]]; auto.
    + intros [H | ->]; auto.
Qed.

Lemma In_shown_years years ks z :
  In z (shown_years annual_data years ks)
  <-> In z ks \/ (In z years /\ has_data annual_data z = true).
Proof.
  unfold shown_years. revert ks.
  induction years as [|y r IH]; intros ks; simpl; [tauto|].
  rewrite IH. destruct (has_data annual_data y) eqn:Hy.
  - rewrite In_add_key. split.
    + intros [[H | ->] | [H1 H2]]; auto.
    + intros [H | [[-> | H1] H2]]; auto.
  - split.
    + intros [H | [H1 H2]]; auto.
    + intros [H | [[-> | H1] H2]]; auto. congruence.
Qed.

Lemma shown_years_NoDup years ks :
  List.NoDup years -> (forall y, In y years -> ~ In y ks) ->
  shown_years annual_data years ks
  = ks ++ List.filter (has_data annual_data) years.
Proof.
  unfold shown_years. revert ks.
  induction years as [|y r IH]; intros ks Hnd Hfresh; simpl;
    [rewrite app_nil_r; reflexivity|].
  inversion Hnd as [|? ? Hnin Hr]; subst.
  destruct (has_data annual_data y).
  - assert (Hadd : add_key y ks = ks ++ [y]).
    { unfold add_key. destruct (existsb (Z.eqb y) ks) eqn:Hex; [|reflexivity].
      apply existsb_exists in Hex. destruct Hex as (x & Hx & Heq).
      apply Z.eqb_eq in Heq. subst x.
      exfalso. apply (Hfresh y); [left; reflexivity | exact Hx]. }
    rewrite Hadd, IH; [rewrite <- app_assoc; reflexivity | exact Hr |].
    intros z Hz Hin. apply in_app_iff in Hin. destruct Hin as [Hin | [<- | []]].
    + apply (Hfresh z); [right; exact Hz | exact Hin].
    + exact (Hnin Hz).
  - apply IH; [exact Hr|]. intros z Hz. apply Hfresh. right. exact Hz.
Qed.

End ShownYears.

Lemma has_data_lookup (d : gmap Z (Series Timestamp)) y :
  has_data d y = true ->
  exists s, d !! y = Some s /\ s <> []
            /\ last_value d y = List.last (values s) nan.
Proof.
  unfold has_data, last_value.
  destruct (d !! y) as [[|p s]|]; try discriminate.
  intros _. exists (p :: s). repeat split. discriminate.
Qed.

(** C5. Whenever every displayed year with normalized data also has
    original data, the summary is built without an exception; its rows
    are exactly the displayed years whose normalized series is not
    empty, each with the last element of the year's normalized series
    and the last element of its original series; years without data get
    no row; the rows follow the order of the displayed years (for a
    selection without repetition: the selection itself with the years
    without data removed, not a numerical sort); and the table shows
    these rows, the values printed with two decimals. *)
Theorem summary_rows_are_last_values {R : Rendering}
    (annual_data annual_original : gmap Z (Series Timestamp))
    (years_to_display : list Z) :
  coherent annual_data annual_original years_to_display = true ->
  exists (year_end_perf year_end_value : odict float) (ks : list Z),
    year_end annual_data annual_original years_to_display
    = Ok (year_end_perf, year_end_value)
    /\ odict_keys year_end_perf = ks
    /\ odict_keys year_end_value = ks
    /\ (forall y, In y ks <->
                  In y years_to_display /\ has_data annual_data y = true)
    /\ (forall y, In y ks ->
          exists s o,
            annual_data !! y = Some s /\ annual_original !! y = Some o
            /\ In (y, List.last (values s) nan) year_end_perf
            /\ In (y, List.last (values o) nan) year_end_value)
    /\ year_end_perf = map (fun y => (y, last_value annual_data y)) ks
    /\ year_end_value = map (fun y => (y, last_value annual_original y)) ks
    /\ (List.NoDup years_to_display ->
        ks = List.filter (has_data annual_data) years_to_display)
    /\ create_summary_table annual_data annual_original years_to_display
       = Ok (match ks with
             | [] => None
             | _ =>
                 Some (mkSummaryTable ks
                         (map (fun y => fmt_2f (last_value annual_original y)) ks)
                         (map (fun y => fmt_2f (last_value annual_data y)) ks))
             end).
Proof.
  intros Hc.
  set (ks := shown_years annual_data years_to_display []).
  exists (map (fun y => (y, last_value annual_data y)) ks),
         (map (fun y => (y, last_value annual_original y)) ks), ks.
  assert (Hmem : forall y, In y ks <->
                   In y years_to_display /\ has_data annual_data y = true).
  { intros y. unfold ks. rewrite In_shown_years. simpl. tauto. }
  split; [apply year_end_closed; exact Hc|].
  split; [unfold odict_keys; rewrite map_map; simpl; apply map_id|].
  split; [unfold odict_keys; rewrite map_map; simpl; apply map_id|].
  split; [exact Hmem|].
  split.
  { intros y Hy. destruct (proj1 (Hmem y) Hy) as [Hin Hd].
    unfold coherent in Hc. rewrite forallb_forall in Hc.
    specialize (Hc y Hin). rewrite Hd in Hc. simpl in Hc.
    destruct (has_data_lookup _ _ Hd) as (s & Hs & _ & Hls).
    destruct (has_data_lookup _ _ Hc) as (o & Ho & _ & Hlo).
    exists s, o. split; [exact Hs|]. split; [exact Ho|].
    rewrite <- Hls, <- Hlo. split.
    - apply (in_map (fun y => (y, last_value annual_data y))). exact Hy.
    - apply (in_map (fun y => (y, last_value annual_original y))). exact Hy. }
  split; [reflexivity|]. split; [reflexivity|].
  split.
  { intros Hnd. unfold ks.
    rewrite shown_years_NoDup; [reflexivity | exact Hnd | intros y _ []]. }
  rewrite (create_summary_table_closed annual_data annual_original _ Hc).
  fold ks. destruct ks; reflexivity.
Qed.

Lemma summary_rows_are_last_values_witness :
  coherent (normalized overlay_results) (original overlay_results) [2020; 2019]
  = true
  /\ exists (year_end_perf year_end_value : odict float) (ks : list Z),
      year_end (normalized overlay_results) (original overlay_results) [2020; 2019]
      = Ok (year_end_perf, year_end_value)
      /\ odict_keys year_end_perf = ks
      /\ odict_keys year_end_value = ks
      /\ (forall y, In y ks <->
                    In y [2020; 2019]
                    /\ has_data (normalized overlay_results) y = true)
      /\ (forall y, In y ks ->
            exists s o,
              normalized overlay_results !! y = Some s
              /\ original overlay_results !! y = Some o
              /\ In (y, List.last (values s) nan) year_end_perf
              /\ In (y, List.last (values o) nan) year_end_value)
      /\ year_end_perf
         = map (fun y => (y, last_value (normalized overlay_results) y)) ks
      /\ year_end_value
         = map (fun y => (y, last_value (original overlay_results) y)) ks
      /\ (List.NoDup [2020; 2019] ->
          ks = List.filter (has_data (normalized overlay_results)) [2020; 2019])
      /\ create_summary_table (R := AsciiRendering.rendering)
           (normalized overlay_results) (original overlay_results) [2020; 2019]
         = Ok (match ks with
               | [] => None
               | _ =>
                   Some (mkSummaryTable ks
                           (map (fun y => AsciiRendering.two_decimals
                                            (last_value (original overlay_results) y)) ks)
                           (map (fun y => AsciiRendering.two_decimals
                                            (last_value (normalized overlay_results) y)) ks))
               end).
Proof.
  split; [vm_compute; reflexivity|].
  apply (summary_rows_are_last_values (R := AsciiRendering.rendering)
           (normalized overlay_results) (original overlay_results) [2020; 2019]).
  vm_compute. reflexivity.
Defined.

(** The summary of the two-year example: 2020 before 2019, as
    selected. *)
Example overlay_summary :
  process_annual_data (Some overlay_frame) [2020; 2019] = Ok (Some overlay_results)
  /\ year_end (normalized overlay_results) (original overlay_results) [2020; 2019]
     = Ok ([(2020, float_of_Z (-25)); (2019, float_of_Z 25)],
           [(2020, float_of_Z 60); (2019, float_of_Z 50)])
  /\ create_summary_table (R := AsciiRendering.rendering)
       (normalized overlay_results) (original overlay_results) [2020; 2019]
     = Ok (Some (mkSummaryTable [2020; 2019]
                   ["60.00"; "50.00"]%string ["-25.00"; "25.00"]%string)).
Proof. repeat split; vm_compute; reflexivity. Qed.

Section PipelineSummary.
Variables (data : DataFrame) (years : list Z).

Lemma has_data_normalized y :
  has_data (normalized (run_years data years no_results)) y
  = requested y years && survives data y.
Proof.
  unfold has_data. rewrite normalized_run_years.
  destruct (requested y years && survives data y) eqn:Hrs; [|reflexivity].
  apply andb_true_iff in Hrs. destruct Hrs as [_ Hs].
  apply survives_spec in Hs. destruct Hs as [Hlen _].
  rewrite <- (length_normalized_series data y) in Hlen.
  destruct (normalized_series data y); [simpl in Hlen; lia | reflexivity].
Qed.

Lemma has_data_original y :
  has_data (original (run_years data years no_results)) y
  = requested y years && survives data y.
Proof.
  unfold has_data. rewrite original_run_years.
  destruct (requested y years && survives data y) eqn:Hrs; [|reflexivity].
  apply andb_true_iff in Hrs. destruct Hrs as [_ Hs].
  apply survives_spec in Hs. destruct Hs as [Hlen _].
  rewrite <- (length_filled data y) in Hlen.
  destruct (filled data y); [simpl in Hlen; lia | reflexivity].
Qed.

Lemma pipeline_coherent ys :
  coherent (normalized (run_years data years no_results))
           (original (run_years data years no_results)) ys = true.
Proof.
  unfold coherent. apply forallb_forall. intros y _.
  rewrite has_data_normalized, has_data_original.
  destruct (requested y years && survives data y); reflexivity.
Qed.

End PipelineSummary.

Lemma kept_iff_survives data y :
  survives data y = true <->
  (5 < length (year_window data y))%nat
  /\ exists t v, In (t, v) (year_window data y) /\ isna v = false.
Proof. rewrite survives_spec, first_valid_exists. reflexivity. Qed.

Lemma is_Some_if {A : Type} (b : bool) (a : A) (o : option A) :
  o = None -> (is_Some (if b then Some a else o) <-> b = true).
Proof.
  intros ->. destruct b; split; intros H; try reflexivity; try discriminate.
  - eexists. reflexivity.
  - destruct H. discriminate.
Qed.

(** C3. On a well-formed frame and a non-empty selection the pipeline
    and the summary complete without an exception, and a requested year
    is present in the normalized, original and dates dicts and in the
    summary exactly when its year window has more than 5 bars and at
    least one non-missing close; any other requested year is absent from
    all four. *)
Theorem year_kept_iff_enough_data {R : Rendering}
    (data : DataFrame) (years : list Z) :
  RawPriceSeries data = true -> years <> [] ->
  exists res tbl,
    process_annual_data (Some data) years = Ok (Some res)
    /\ create_summary_table (normalized res) (original res) years = Ok tbl
    /\ forall y,
        In y years ->
        let kept :=
          (5 < length (year_window data y))%nat
          /\ exists t v, In (t, v) (year_window data y) /\ isna v = false in
        (is_Some (normalized res !! y) <-> kept)
        /\ (is_Some (original res !! y) <-> kept)
        /\ (is_Some (dates res !! y) <-> kept)
        /\ (In y (summary_years tbl) <-> kept).
Proof.
  intros Hwf Hne.
  pose proof (create_summary_table_closed
                (normalized (run_years data years no_results))
                (original (run_years data years no_results)) years
                (pipeline_coherent data years years)) as Htbl.
  eexists (run_years data years no_results), _.
  split; [apply process_annual_data_closed; assumption|].
  split; [exact Htbl|].
  intros y Hy kept. subst kept.
  rewrite <- kept_iff_survives.
  assert (Hin : In y (shown_years (normalized (run_years data years no_results))
                        years [])
                <-> survives data y = true).
  { rewrite In_shown_years, has_data_normalized.
    apply requested_In in Hy. rewrite Hy. simpl.
    apply requested_In in Hy. tauto. }
  apply requested_In in Hy.
  rewrite normalized_run_years, original_run_years, dates_run_years, Hy.
  cbn [andb].
  rewrite !is_Some_if by reflexivity.
  split; [reflexivity|]. split; [reflexivity|]. split; [reflexivity|].
  destruct (shown_years (normalized (run_years data years no_results)) years []);
    exact Hin.
Qed.

Lemma year_kept_iff_enough_data_witness :
  RawPriceSeries two_year_frame = true /\ [2019; 2020] <> [] /\
  exists res tbl,
    process_annual_data (Some two_year_frame) [2019; 2020] = Ok (Some res)
    /\ create_summary_table (R := AsciiRendering.rendering)
         (normalized res) (original res) [2019; 2020] = Ok tbl
    /\ forall y,
        In y [2019; 2020] ->
        let kept :=
          (5 < length (year_window two_year_frame y))%nat
          /\ exists t v, In (t, v) (year_window two_year_frame y) /\ isna v = false in
        (is_Some (normalized res !! y) <-> kept)
        /\ (is_Some (original res !! y) <-> kept)
        /\ (is_Some (dates res !! y) <-> kept)
        /\ (In y (summary_years tbl) <-> kept).
Proof.
  split; [reflexivity|]. split; [discriminate|].
  apply (year_kept_iff_enough_data (R := AsciiRendering.rendering)
           two_year_frame [2019; 2020]); [reflexivity | discriminate].
Defined.

(** Year dropping on the example: 2019 has three bars and is absent
    everywhere, 2020 has six and is kept. *)
Example two_year_frame_drops_2019 :
  exists res,
    process_annual_data (Some two_year_frame) [2019; 2020] = Ok (Some res)
    /\ normalized res !! 2019 = None /\ original res !! 2019 = None
    /\ dates res !! 2019 = None
    /\ is_Some (normalized res !! 2020) /\ is_Some (original res !! 2020)
    /\ is_Some (dates res !! 2020)
    /\ create_summary_table (R := AsciiRendering.rendering)
         (normalized res) (original res) [2019; 2020]
       = Ok (Some (mkSummaryTable [2020] ["25.00"%string] ["25.00"%string])).
Proof.
  eexists. split; [vm_compute; reflexivity|].
  repeat split; try (vm_compute; reflexivity); vm_compute; eexists; reflexivity.
Qed.

Section Chart.
Context {R : Rendering}.

Lemma skipn_nth_error_Some {A : Type} (l : list A) j x :
  nth_error l j = Some x -> skipn j l = x :: skipn (S j) l.
Proof.
  revert j. induction l as [|a r IH]; intros [|j]; simpl; try discriminate.
  - intros Heq. inversion Heq. reflexivity.
  - intros Hj. rewrite (IH j Hj). reflexivity.
Qed.

Lemma skipn_nth_error_None {A : Type} (l : list A) j :
  nth_error l j = None -> skipn j l = [].
Proof.
  intros Hj. apply skipn_all2. apply nth_error_None. exact Hj.
Qed.

Lemma length_zip3 {A B C : Type} (a : list A) (b : list B) (c : list C) :
  length (zip3 a b c) = Nat.min (length a) (Nat.min (length b) (length c)).
Proof.
  revert b c. induction a as [|x a IH]; intros [|y b] [|z c]; simpl;
    try reflexivity.
  rewrite IH. reflexivity.
Qed.

(** The loop of [create_hover_text] from position [j] on, when the
    original series covers every position that gets a label. *)
Lemma hover_loop_closed actual_dates original_series items j hover_text :
  (Nat.min (length actual_dates) (j + length items) <= length original_series)%nat ->
  hover_loop actual_dates original_series items j hover_text
  = Ok (hover_text
        ++ map (fun '(d, v, p) => hover_label d v p)
             (zip3 (skipn j actual_dates) (skipn j (values original_series))
                   (values items))).
Proof.
  revert j hover_text.
  induction items as [|[l perf] rest IH]; intros j hover_text Hlen.
  - simpl. destruct (skipn j actual_dates);
      [|destruct (skipn j (values original_series))];
      simpl; rewrite app_nil_r; reflexivity.
  - cbn [hover_loop].
    destruct (nth_error actual_dates j) as [dt|] eqn:Hd.
    + assert (Hj : (j < length actual_dates)%nat)
        by (apply nth_error_Some; congruence).
      cbn [length] in Hlen.
      destruct (nth_error original_series j) as [[lo v]|] eqn:Ho.
      * unfold iloc. rewrite Ho. cbn [mbind outcome_bind].
        rewrite IH by lia.
        rewrite (skipn_nth_error_Some _ _ _ Hd).
        assert (Hv : nth_error (values original_series) j = Some v).
        { unfold values. rewrite nth_error_map, Ho. reflexivity. }
        rewrite (skipn_nth_error_Some _ _ _ Hv).
        cbn [values map zip3 snd]. rewrite <- app_assoc. reflexivity.
      * apply nth_error_None in Ho. lia.
    + rewrite IH.
      * rewrite (skipn_nth_error_None _ _ Hd).
        assert (Hd' : nth_error actual_dates (S j) = None).
        { apply nth_error_None. apply nth_error_None in Hd. lia. }
        rewrite (skipn_nth_error_None _ _ Hd'). reflexivity.
      * apply nth_error_None in Hd. cbn [length] in Hlen. lia.
Qed.

Lemma create_hover_text_closed actual_dates original_series year_series :
  (Nat.min (length actual_dates) (length year_series)
   <= length original_series)%nat ->
  create_hover_text actual_dates original_series year_series
  = Ok (hover_labels actual_dates original_series year_series).
Proof.
  intros Hlen. unfold create_hover_text.
  rewrite hover_loop_closed by exact Hlen. reflexivity.
Qed.

Lemma length_hover_labels actual_dates original_series year_series :
  (Nat.min (length actual_dates) (length year_series)
   <= length original_series)%nat ->
  length (hover_labels actual_dates original_series year_series)
  = Nat.min (length actual_dates) (length year_series).
Proof.
  intros Hlen. unfold hover_labels.
  rewrite length_map, length_zip3, !length_values. lia.
Qed.

Lemma year_trace_closed res show_percent i y s ds o :
  dates res !! y = Some ds -> original res !! y = Some o ->
  (Nat.min (length ds) (length s) <= length o)%nat ->
  year_trace res show_percent i y s = Ok (trace_of show_percent i y s ds o).
Proof.
  intros Hds Ho Hlen. unfold year_trace, getitem.
  rewrite Hds, Ho.
  destruct show_percent; cbn [mbind outcome_bind];
    rewrite (create_hover_text_closed _ _ _ Hlen); reflexivity.
Qed.

Lemma chart_loop_closed res show_percent years i :
  chart_ready res years = true ->
  chart_loop res show_percent i years
  = Ok (traces_of res show_percent i years).
Proof.
  unfold chart_ready. revert i.
  induction years as [|y r IH]; intros i Hr; [reflexivity|].
  cbn [forallb] in Hr. apply andb_true_iff in Hr. destruct Hr as [Hy Hr].
  cbn [chart_loop traces_of].
  destruct (normalized res !! y) as [s|]; [|apply IH; exact Hr].
  destruct (dates res !! y) as [ds|] eqn:Hds; [|discriminate].
  destruct (original res !! y) as [o|] eqn:Ho; [|discriminate].
  apply Nat.leb_le in Hy.
  rewrite (year_trace_closed res show_percent i y s ds o Hds Ho Hy).
  cbn [mbind outcome_bind]. rewrite (IH (S i) Hr). reflexivity.
Qed.

(** The two display modes build the same traces up to their y data. *)
Lemma traces_of_without_y res years i :
  map without_y (traces_of res true i years)
  = map without_y (traces_of res false i years).
Proof.
  revert i. induction years as [|y r IH]; intros i; [reflexivity|].
  cbn [traces_of].
  destruct (normalized res !! y) as [s|]; [|apply IH].
  destruct (dates res !! y) as [ds|]; [|apply IH].
  destruct (original res !! y) as [o|]; [|apply IH].
  cbn [map]. rewrite IH. reflexivity.
Qed.

End Chart.

Section ChartFacts.
Context {R : Rendering}.

Lemma create_performance_chart_closed res ticker years show_percent :
  chart_ready res years = true ->
  exists fig,
    create_performance_chart res ticker years show_percent = Ok fig
    /\ traces fig = traces_of res show_percent 0 years.
Proof.
  intros Hr. unfold create_performance_chart.
  rewrite (chart_loop_closed res show_percent years 0 Hr).
  cbn [mbind outcome_bind]. eexists. split; reflexivity.
Qed.

Lemma In_traces_of res show_percent years i tr :
  In tr (traces_of res show_percent i years) ->
  exists j y s ds o,
    In y years
    /\ normalized res !! y = Some s /\ dates res !! y = Some ds
    /\ original res !! y = Some o
    /\ tr = trace_of show_percent j y s ds o.
Proof.
  revert i. induction years as [|y r IH]; intros i; cbn [traces_of]; [intros []|].
  assert (Hrest : In tr (traces_of res show_percent (S i) r) ->
                  exists j y0 s ds o,
                    In y0 (y :: r)
                    /\ normalized res !! y0 = Some s /\ dates res !! y0 = Some ds
                    /\ original res !! y0 = Some o
                    /\ tr = trace_of show_percent j y0 s ds o).
  { intros Hin. destruct (IH _ Hin) as (j & y0 & s & ds & o & Hy0 & Hrest).
    exists j, y0, s, ds, o. split; [right; exact Hy0 | exact Hrest]. }
  destruct (normalized res !! y) as [s|] eqn:Hs; [|exact Hrest].
  destruct (dates res !! y) as [ds|] eqn:Hds; [|exact Hrest].
  destruct (original res !! y) as [o|] eqn:Ho; [|exact Hrest].
  intros [<- | Hin]; [|exact (Hrest Hin)].
  exists i, y, s, ds, o. repeat split; auto. left. reflexivity.
Qed.

Lemma chart_ready_In res years y s :
  chart_ready res years = true -> In y years ->
  normalized res !! y = Some s ->
  exists ds o,
    dates res !! y = Some ds /\ original res !! y = Some o
    /\ (Nat.min (length ds) (length s) <= length o)%nat.
Proof.
  unfold chart_ready. rewrite forallb_forall. intros Hall Hy Hs.
  specialize (Hall y Hy). rewrite Hs in Hall.
  destruct (dates res !! y) as [ds|]; [|discriminate].
  destruct (original res !! y) as [o|]; [|discriminate].
  apply Nat.leb_le in Hall. eauto.
Qed.

Lemma pipeline_chart_ready data years ys :
  chart_ready (run_years data years no_results) ys = true.
Proof.
  unfold chart_ready. apply forallb_forall. intros y _.
  rewrite normalized_run_years, original_run_years, dates_run_years.
  destruct (requested y years && survives data y); [|reflexivity].
  apply Nat.leb_le.
  rewrite length_index, length_filled, length_normalized_series. lia.
Qed.

(** On the output of the pipeline the labels always match the series,
    so every trace carries its hover text. *)
Lemma pipeline_trace_has_hover_text data show_percent i y :
  trace_hovertext
    (trace_of show_percent i y (normalized_series data y)
       (index (filled data y)) (filled data y))
  = Some (hover_labels (index (filled data y)) (filled data y)
            (normalized_series data y)).
Proof.
  unfold trace_of. cbn [trace_hovertext].
  rewrite length_hover_labels
    by (rewrite length_index, length_filled, length_normalized_series; lia).
  rewrite !length_index, length_filled, length_normalized_series.
  rewrite Nat.min_id, Nat.eqb_refl. reflexivity.
Qed.

End ChartFacts.

(** C8. Whenever the labels of a year are computed, its trace is built
    without an exception and carries them exactly when their number is
    the length of the plotted series; otherwise its hover text is none.
    And when every displayed year has its dates and enough original
    values for the labelled positions, the whole chart is built without
    an exception, each trace obeying that rule. *)
Theorem hover_text_attached_iff_lengths_match {R : Rendering} :
  (forall (res : AnnualResults) (show_percent : bool) (i : nat) (y : Z)
          (s o : Series Timestamp) (ds : list Timestamp) (labels : list string),
      dates res !! y = Some ds -> original res !! y = Some o ->
      create_hover_text ds o s = Ok labels ->
      exists tr,
        year_trace res show_percent i y s = Ok tr
        /\ trace_x tr = index s
        /\ (trace_hovertext tr = Some labels <-> length labels = length (trace_x tr))
        /\ (trace_hovertext tr = None <-> length labels <> length (trace_x tr)))
  /\ forall (res : AnnualResults) (ticker : string) (years : list Z)
            (show_percent : bool),
      chart_ready res years = true ->
      exists fig,
        create_performance_chart res ticker years show_percent = Ok fig
        /\ forall tr,
            In tr (traces fig) ->
            exists y s ds o labels,
              In y years
              /\ normalized res !! y = Some s /\ dates res !! y = Some ds
              /\ original res !! y = Some o
              /\ create_hover_text ds o s = Ok labels
              /\ trace_x tr = index s
              /\ trace_hovertext tr
                 = if Nat.eqb (length labels) (length (trace_x tr))
                   then Some labels else None.
Proof.
  split.
  - intros res show_percent i y s o ds labels Hds Ho Hlabels.
    assert (Htr : year_trace res show_percent i y s
                  = Ok (mkTrace (index s)
                          (if show_percent then values s else values o)
                          (str_int y)
                          (nth (i mod length COLOR_PALETTE) COLOR_PALETTE ""%string)
                          (if Nat.eqb (length labels) (length (index s))
                           then Some labels else None)
                          (map (fun '(d, p, v) => (strftime_Ymd d, p, v))
                               (zip3 ds (values o) (values s))))).
    { unfold year_trace, getitem. rewrite Hds, Ho.
      destruct show_percent; cbn [mbind outcome_bind]; rewrite Hlabels;
        reflexivity. }
    eexists. split; [exact Htr|]. cbn [trace_x trace_hovertext].
    split; [reflexivity|].
    destruct (Nat.eqb_spec (length labels) (length (index s))) as [Heq | Hne].
    + split; split; intros H; try reflexivity; try assumption;
        try discriminate; contradiction.
    + split; split; intros H; try reflexivity; try assumption;
        try discriminate; contradiction.
  - intros res ticker years show_percent Hr.
    destruct (create_performance_chart_closed res ticker years show_percent Hr)
      as (fig & Hfig & Htraces).
    exists fig. split; [exact Hfig|].
    intros tr Htr. rewrite Htraces in Htr.
    destruct (In_traces_of _ _ _ _ _ Htr) as (j & y & s & ds & o & Hy & Hs & Hds & Ho & ->).
    destruct (chart_ready_In _ _ _ _ Hr Hy Hs) as (ds' & o' & Hds' & Ho' & Hlen).
    rewrite Hds in Hds'. rewrite Ho in Ho'. inversion Hds'. inversion Ho'. subst ds' o'.
    exists y, s, ds, o, (hover_labels ds o s).
    split; [exact Hy|]. split; [exact Hs|]. split; [exact Hds|]. split; [exact Ho|].
    split; [apply create_hover_text_closed; exact Hlen|].
    split; reflexivity.
Qed.

Lemma hover_text_attached_iff_lengths_match_witness :
  dates mismatched_results !! 2021 = Some [jan21 4]
  /\ original mismatched_results !! 2021
     = Some [(jan21 4, float_of_Z 100); (jan21 5, float_of_Z 110)]
  /\ create_hover_text (R := AsciiRendering.rendering) [jan21 4]
       [(jan21 4, float_of_Z 100); (jan21 5, float_of_Z 110)]
       [(mkTimestamp 2000 1 4, float_of_Z 0); (mkTimestamp 2000 1 5, float_of_Z 10)]
     = Ok ["<b>Date</b>: 2021-01-04<br><b>Day</b>: Monday<br><b>Value</b>: 100.00<br><b>Performance</b>: 0.00%"%string]
  /\ exists tr,
      year_trace (R := AsciiRendering.rendering) mismatched_results true 0 2021
        [(mkTimestamp 2000 1 4, float_of_Z 0); (mkTimestamp 2000 1 5, float_of_Z 10)]
      = Ok tr
      /\ trace_x tr = [mkTimestamp 2000 1 4; mkTimestamp 2000 1 5]
      /\ (trace_hovertext tr
          = Some ["<b>Date</b>: 2021-01-04<br><b>Day</b>: Monday<br><b>Value</b>: 100.00<br><b>Performance</b>: 0.00%"%string]
          <-> length ["<b>Date</b>: 2021-01-04<br><b>Day</b>: Monday<br><b>Value</b>: 100.00<br><b>Performance</b>: 0.00%"%string]
              = length (trace_x tr))
      /\ (trace_hovertext tr = None
          <-> length ["<b>Date</b>: 2021-01-04<br><b>Day</b>: Monday<br><b>Value</b>: 100.00<br><b>Performance</b>: 0.00%"%string]
              <> length (trace_x tr)).
Proof.
  split; [reflexivity|]. split; [reflexivity|]. split; [vm_compute; reflexivity|].
  apply (proj1 (hover_text_attached_iff_lengths_match (R := AsciiRendering.rendering))
           mismatched_results true 0%nat 2021
           [(mkTimestamp 2000 1 4, float_of_Z 0); (mkTimestamp 2000 1 5, float_of_Z 10)]
           [(jan21 4, float_of_Z 100); (jan21 5, float_of_Z 110)]
           [jan21 4]);
    [reflexivity | reflexivity | vm_compute; reflexivity].
Defined.

(** With dates one short of the series the single label is dropped and
    the chart is still built. *)
Example mismatched_chart_has_no_hover_text :
  exists fig tr,
    create_performance_chart (R := AsciiRendering.rendering)
      mismatched_results "aapl" [2021] true = Ok fig
    /\ traces fig = [tr]
    /\ trace_hovertext tr = None
    /\ length (trace_x tr) = 2%nat.
Proof.
  eexists. eexists. split; [vm_compute; reflexivity|].
  repeat split.
Qed.

(** C9. On a well-formed frame and a non-empty selection the per-year
    structures and the summary are computed once, without reference to
    the display mode; in either mode the page shows the same elements,
    and the two charts have the same traces except for their y data,
    which are the normalized values in percent mode and the filled
    original values in value mode. *)
Theorem display_mode_only_selects_y {R : Rendering}
    (data : DataFrame) (ticker : string) (years : list Z) :
  RawPriceSeries data = true -> years <> [] ->
  exists (res : AnnualResults) (summary : option SummaryTable)
         (fig_percent fig_value : Figure),
    process_annual_data (Some data) years = Ok (Some res)
    /\ create_summary_table (normalized res) (original res) years = Ok summary
    /\ create_performance_chart res ticker years true = Ok fig_percent
    /\ create_performance_chart res ticker years false = Ok fig_value
    /\ (forall show_percent : bool,
           process_and_display_data (Some data) ticker years show_percent
           = Ok (if Nat.eqb (size (normalized res)) 0
                 then [Warning ("No complete annual data available for "
                                ++ ticker ++ " in the selected years.")]
                 else [PlotlyChart (if show_percent then fig_percent else fig_value);
                       Subheader "Performance Summary"]
                      ++ match summary with
                         | Some t => [Table t]
                         | None => []
                         end))
    /\ map without_y (traces fig_percent) = map without_y (traces fig_value)
    /\ (forall tr, In tr (traces fig_percent) ->
          exists y s, normalized res !! y = Some s /\ trace_y tr = values s)
    /\ (forall tr, In tr (traces fig_value) ->
          exists y o, original res !! y = Some o /\ trace_y tr = values o).
Proof.
  intros Hwf Hne.
  set (res := run_years data years no_results).
  pose proof (process_annual_data_closed data Hwf years Hne) as Hrun.
  pose proof (create_summary_table_closed (normalized res) (original res) years
                (pipeline_coherent data years years)) as Htbl.
  destruct (create_performance_chart_closed res ticker years true
              (pipeline_chart_ready data years years)) as (fp & Hfp & Htp).
  destruct (create_performance_chart_closed res ticker years false
              (pipeline_chart_ready data years years)) as (fv & Hfv & Htv).
  exists res. eexists. exists fp, fv.
  split; [exact Hrun|]. split; [exact Htbl|].
  split; [exact Hfp|]. split; [exact Hfv|].
  split.
  { intros show_percent. unfold process_and_display_data.
    destruct years as [|y0 ys]; [contradiction|].
    rewrite Hrun. cbn [mbind outcome_bind]. fold res.
    destruct (Nat.eqb (size (normalized res)) 0); [reflexivity|].
    destruct show_percent.
    - rewrite Hfp. cbn [mbind outcome_bind]. rewrite Htbl. reflexivity.
    - rewrite Hfv. cbn [mbind outcome_bind]. rewrite Htbl. reflexivity. }
  split; [rewrite Htp, Htv; apply traces_of_without_y|].
  split.
  - intros tr Htr. rewrite Htp in Htr.
    destruct (In_traces_of _ _ _ _ _ Htr) as (j & y & s & ds & o & _ & Hs & _ & _ & ->).
    exists y, s. split; [exact Hs | reflexivity].
  - intros tr Htr. rewrite Htv in Htr.
    destruct (In_traces_of _ _ _ _ _ Htr) as (j & y & s & ds & o & _ & _ & _ & Ho & ->).
    exists y, o. split; [exact Ho | reflexivity].
Qed.

Lemma display_mode_only_selects_y_witness :
  RawPriceSeries overlay_frame = true /\ [2020; 2019] <> [] /\
  exists (res : AnnualResults) (summary : option SummaryTable)
         (fig_percent fig_value : Figure),
    process_annual_data (Some overlay_frame) [2020; 2019] = Ok (Some res)
    /\ create_summary_table (R := AsciiRendering.rendering)
         (normalized res) (original res) [2020; 2019] = Ok summary
    /\ create_performance_chart (R := AsciiRendering.rendering)
         res "aapl" [2020; 2019] true = Ok fig_percent
    /\ create_performance_chart (R := AsciiRendering.rendering)
         res "aapl" [2020; 2019] false = Ok fig_value
    /\ (forall show_percent : bool,
           process_and_display_data (R := AsciiRendering.rendering)
             (Some overlay_frame) "aapl" [2020; 2019] show_percent
           = Ok (if Nat.eqb (size (normalized res)) 0
                 then [Warning ("No complete annual data available for "
                                ++ "aapl" ++ " in the selected years.")]
                 else [PlotlyChart (if show_percent then fig_percent else fig_value);
                       Subheader "Performance Summary"]
                      ++ match summary with
                         | Some t => [Table t]
                         | None => []
                         end))
    /\ map without_y (traces fig_percent) = map without_y (traces fig_value)
    /\ (forall tr, In tr (traces fig_percent) ->
          exists y s, normalized res !! y = Some s /\ trace_y tr = values s)
    /\ (forall tr, In tr (traces fig_value) ->
          exists y o, original res !! y = Some o /\ trace_y tr = values o).
Proof.
  split; [reflexivity|]. split; [discriminate|].
  apply (display_mode_only_selects_y (R := AsciiRendering.rendering)
           overlay_frame "aapl" [2020; 2019]); [reflexivity | discriminate].
Defined.

(** The two charts of the example: same dates, names, colours and hover
    text; y is the return in one and the close in the other. *)
Example overlay_charts :
  exists fig_percent fig_value,
    create_performance_chart (R := AsciiRendering.rendering)
      overlay_results "aapl" [2020; 2019] true = Ok fig_percent
    /\ create_performance_chart (R := AsciiRendering.rendering)
         overlay_results "aapl" [2020; 2019] false = Ok fig_value
    /\ layout_title fig_percent = "AAPL - Annual Performance (%)"%string
    /\ layout_title fig_value = "AAPL - Annual Value"%string
    /\ map trace_name (traces fig_percent) = ["2020"; "2019"]%string
    /\ map trace_color (traces fig_value) = ["#d62728"; "#1f77b4"]%string
    /\ map trace_y (traces fig_percent)
       = [map (percent_return (float_of_Z 80))
              (map float_of_Z [80; 81; 82; 83; 84; 60]);
          map (percent_return (float_of_Z 40))
              (map float_of_Z [40; 41; 42; 43; 44; 50])]
    /\ map trace_y (traces fig_value)
       = [map float_of_Z [80; 81; 82; 83; 84; 60];
          map float_of_Z [40; 41; 42; 43; 44; 50]].
Proof.
  eexists. eexists.
  split; [vm_compute; reflexivity|]. split; [vm_compute; reflexivity|].
  repeat split; vm_compute; reflexivity.
Qed.

(* ------------------------------------------------------------------ *)
(** * Further properties of the page *)

(** ** The per-year structures *)

Lemma AnnualResults_eq (r1 r2 : AnnualResults) :
  normalized r1 = normalized r2 -> original r1 = original r2 ->
  dates r1 = dates r2 -> r1 = r2.
Proof.
  destruct r1, r2. simpl. intros -> -> ->. reflexivity.
Qed.

Lemma requested_ext (ys1 ys2 : list Z) :
  (forall y, In y ys1 <-> In y ys2) ->
  forall y, requested y ys1 = requested y ys2.
Proof.
  intros Hsame y. apply eq_true_iff_eq. rewrite !requested_In. apply Hsame.
Qed.

(** X1. The order of the selected years and their repetition do not
    matter: two non-empty selections with the same years give the same
    normalized, original and dates dicts. *)
Theorem selection_order_is_irrelevant (data : DataFrame) (ys1 ys2 : list Z) :
  RawPriceSeries data = true -> ys1 <> [] -> ys2 <> [] ->
  (forall y, In y ys1 <-> In y ys2) ->
  exists res,
    process_annual_data (Some data) ys1 = Ok (Some res)
    /\ process_annual_data (Some data) ys2 = Ok (Some res).
Proof.
  intros Hwf Hne1 Hne2 Hsame.
  exists (run_years data ys1 no_results).
  split; [apply process_annual_data_closed; assumption|].
  rewrite (process_annual_data_closed data Hwf ys2 Hne2).
  do 2 f_equal. pose proof (requested_ext _ _ Hsame) as Hreq.
  apply AnnualResults_eq; apply map_eq; intros y.
  - rewrite !normalized_run_years, Hreq. reflexivity.
  - rewrite !original_run_years, Hreq. reflexivity.
  - rewrite !dates_run_years, Hreq. reflexivity.
Qed.

Lemma selection_order_is_irrelevant_witness :
  RawPriceSeries overlay_frame = true
  /\ [2020; 2019] <> [] /\ [2019; 2020; 2019] <> []
  /\ (forall y, In y [2020; 2019] <-> In y [2019; 2020; 2019])
  /\ exists res,
      process_annual_data (Some overlay_frame) [2020; 2019] = Ok (Some res)
      /\ process_annual_data (Some overlay_frame) [2019; 2020; 2019] = Ok (Some res).
Proof.
  assert (Hsame : forall y, In y [2020; 2019] <-> In y [2019; 2020; 2019])
    by (intros y; simpl; tauto).
  split; [reflexivity|]. split; [discriminate|]. split; [discriminate|].
  split; [exact Hsame|].
  apply (selection_order_is_irrelevant overlay_frame [2020; 2019] [2019; 2020; 2019]);
    [reflexivity | discriminate | discriminate | exact Hsame].
Defined.

(** X2. What is stored for a year depends on the rows of that year
    only: two frames with the same rows in year [y] give the same
    entries for [y], whatever their other rows and whatever else is
    selected with [y]. *)
Theorem year_entry_depends_on_its_window
    (data1 data2 : DataFrame) (ys1 ys2 : list Z) (y : Z) :
  RawPriceSeries data1 = true -> RawPriceSeries data2 = true ->
  In y ys1 -> In y ys2 ->
  year_window data1 y = year_window data2 y ->
  exists res1 res2,
    process_annual_data (Some data1) ys1 = Ok (Some res1)
    /\ process_annual_data (Some data2) ys2 = Ok (Some res2)
    /\ normalized res1 !! y = normalized res2 !! y
    /\ original res1 !! y = original res2 !! y
    /\ dates res1 !! y = dates res2 !! y.
Proof.
  intros Hwf1 Hwf2 Hy1 Hy2 Hwin.
  exists (run_years data1 ys1 no_results), (run_years data2 ys2 no_results).
  split; [apply process_annual_data_closed; [assumption | intros ->; destruct Hy1]|].
  split; [apply process_annual_data_closed; [assumption | intros ->; destruct Hy2]|].
  apply requested_In in Hy1, Hy2.
  rewrite !normalized_run_years, !original_run_years, !dates_run_years, Hy1, Hy2.
  unfold survives, normalized_series, filled, baseline. rewrite Hwin.
  repeat split; reflexivity.
Qed.

Lemma year_entry_depends_on_its_window_witness :
  RawPriceSeries overlay_frame = true
  /\ RawPriceSeries overlay_frame_2020_changed = true
  /\ In 2019 [2020; 2019] /\ In 2019 [2019]
  /\ year_window overlay_frame 2019 = year_window overlay_frame_2020_changed 2019
  /\ exists res1 res2,
      process_annual_data (Some overlay_frame) [2020; 2019] = Ok (Some res1)
      /\ process_annual_data (Some overlay_frame_2020_changed) [2019] = Ok (Some res2)
      /\ normalized res1 !! 2019 = normalized res2 !! 2019
      /\ original res1 !! 2019 = original res2 !! 2019
      /\ dates res1 !! 2019 = dates res2 !! 2019.
Proof.
  split; [reflexivity|]. split; [reflexivity|].
  split; [simpl; tauto|]. split; [simpl; tauto|]. split; [reflexivity|].
  apply (year_entry_depends_on_its_window overlay_frame overlay_frame_2020_changed
           [2020; 2019] [2019] 2019);
    [reflexivity | reflexivity | simpl; tauto | simpl; tauto | reflexivity].
Defined.

(** X3. Nothing is stored for a year that was not selected; a stored
    year has at least six bars; and every true date stored under a year
    lies in that calendar year. *)
Theorem stored_years_are_selected_and_full (data : DataFrame) (years : list Z) :
  RawPriceSeries data = true -> years <> [] ->
  exists res,
    process_annual_data (Some data) years = Ok (Some res)
    /\ forall y ds,
        dates res !! y = Some ds ->
        In y years
        /\ (6 <= length ds)%nat
        /\ forall t, In t ds -> year t = y.
Proof.
  intros Hwf Hne.
  exists (run_years data years no_results).
  split; [apply process_annual_data_closed; assumption|].
  intros y ds Hds.
  apply dates_output in Hds. destruct Hds as (Hreq & Hsurv & ->).
  split; [apply requested_In; exact Hreq|].
  apply survives_spec in Hsurv. destruct Hsurv as [Hlen _].
  split; [rewrite length_index; lia|].
  apply window_year.
Qed.

Lemma stored_years_are_selected_and_full_witness :
  RawPriceSeries two_year_frame = true /\ [2019; 2020] <> []
  /\ exists res,
      process_annual_data (Some two_year_frame) [2019; 2020] = Ok (Some res)
      /\ forall y ds,
          dates res !! y = Some ds ->
          In y [2019; 2020]
          /\ (6 <= length ds)%nat
          /\ forall t, In t ds -> year t = y.
Proof.
  split; [reflexivity|]. split; [discriminate|].
  apply (stored_years_are_selected_and_full two_year_frame [2019; 2020]);
    [reflexivity | discriminate].
Defined.

(** ** The fill *)

Section FillFacts.
Context {L : Type}.
Implicit Types (s r : Series L) (v w x : float).

Lemma length_ffill_from last s : length (ffill_from last s) = length s.
Proof. rewrite <- !length_index, index_ffill_from. reflexivity. Qed.

Lemma ffill_from_keeps last s i l v :
  nth_error s i = Some (l, v) -> isna v = false ->
  nth_error (ffill_from last s) i = Some (l, v).
Proof.
  revert last i. induction s as [|[l' v'] r IH]; intros last [|i]; simpl;
    try discriminate.
  - intros Heq Hv. inversion Heq. subst. rewrite Hv. reflexivity.
  - intros Hi Hv. destruct (isna v'); simpl; apply IH; assumption.
Qed.

Lemma bfill_keeps s i l v :
  nth_error s i = Some (l, v) -> isna v = false ->
  nth_error (bfill s) i = Some (l, v).
Proof.
  revert i. induction s as [|[l' v'] r IH]; intros [|i]; simpl; try discriminate.
  - intros Heq Hv. inversion Heq. subst. rewrite Hv. reflexivity.
  - intros Hi Hv. apply IH; assumption.
Qed.

Lemma first_valid_In s w : first_valid s = Some w -> exists l, In (l, w) s.
Proof.
  induction s as [|[l v] r IH]; simpl; [discriminate|].
  destruct (notna v).
  - intros Heq. inversion Heq. subst. exists l. left. reflexivity.
  - intros Hr. destruct (IH Hr) as [l' Hl']. exists l'. right. exact Hl'.
Qed.

Lemma In_ffill_from last s l v :
  In (l, v) (ffill_from last s) -> last = Some v \/ exists l', In (l', v) s.
Proof.
  revert last. induction s as [|[l' v'] r IH]; intros last; simpl; [intros []|].
  destruct (isna v') eqn:Hv'; simpl.
  - intros [Heq | Hin].
    + inversion Heq. subst. destruct last as [w|]; [left; reflexivity|].
      right. exists l. left. reflexivity.
    + destruct (IH _ Hin) as [Hl | [l'' Hl'']]; [left; exact Hl|].
      right. exists l''. right. exact Hl''.
  - intros [Heq | Hin].
    + inversion Heq. subst. right. exists l. left. reflexivity.
    + destruct (IH _ Hin) as [Hl | [l'' Hl'']].
      * inversion Hl. subst. right. exists l'. left. reflexivity.
      * right. exists l''. right. exact Hl''.
Qed.

Lemma In_bfill s l v : In (l, v) (bfill s) -> exists l', In (l', v) s.
Proof.
  induction s as [|[l' v'] r IH]; simpl; [intros []|].
  intros [Heq | Hin].
  - inversion Heq. subst.
    destruct (isna v'); [|exists l; left; reflexivity].
    destruct (first_valid r) as [w|] eqn:Hw; [|exists l; left; reflexivity].
    destruct (first_valid_In _ _ Hw) as [l'' Hl'']. exists l''. right. exact Hl''.
  - destruct (IH Hin) as [l'' Hl'']. exists l''. right. exact Hl''.
Qed.

Lemma first_valid_app s r :
  first_valid (s ++ r)
  = match first_valid s with Some w => Some w | None => first_valid r end.
Proof.
  induction s as [|[l v] s' IH]; simpl; [reflexivity|].
  destruct (notna v); [reflexivity | exact IH].
Qed.

Lemma first_valid_None s :
  first_valid s = None <-> forall l v, In (l, v) s -> isna v = true.
Proof.
  induction s as [|[l v] r IH]; simpl.
  - split; [intros _ l v [] | reflexivity].
  - unfold notna. destruct (isna v) eqn:Hv; simpl.
    + rewrite IH. split.
      * intros Hall l' v' [Heq | Hin]; [inversion Heq; subst; exact Hv | eauto].
      * intros Hall l' v' Hin. apply (Hall l' v'). right. exact Hin.
    + split; [discriminate|]. intros Hall.
      specialize (Hall l v (or_introl eq_refl)). congruence.
Qed.

Lemma first_valid_rev_None s :
  first_valid (rev s) = None -> first_valid s = None.
Proof.
  rewrite !first_valid_None. intros Hall l v Hin.
  apply (Hall l v). apply in_rev in Hin. exact Hin.
Qed.

(** Forward fill of a series cut in two: the second part starts from
    the last valid value of the first. *)
Lemma ffill_from_app last s r :
  ffill_from last (s ++ r)
  = ffill_from last s
    ++ ffill_from (match first_valid (rev s) with
                   | Some w => Some w
                   | None => last
                   end) r.
Proof.
  revert last. induction s as [|[l v] s' IH]; intros last; [reflexivity|].
  cbn [app ffill_from rev]. rewrite first_valid_app. cbn [first_valid].
  unfold notna. destruct (isna v); cbn [negb].
  - rewrite IH. cbn [app].
    destruct (first_valid (rev s')); reflexivity.
  - rewrite IH. cbn [app].
    destruct (first_valid (rev s')); reflexivity.
Qed.

Lemma nth_error_middle {A : Type} (a b : list A) (x : A) :
  nth_error (a ++ x :: b) (length a) = Some x.
Proof.
  induction a as [|y a IH]; simpl; [reflexivity | exact IH].
Qed.

Lemma skipn_middle {A : Type} (a b : list A) (x : A) :
  skipn (S (length a)) (a ++ x :: b) = b.
Proof.
  induction a as [|y a IH]; simpl; [reflexivity | exact IH].
Qed.

(** Backward fill at a gap: the next valid value, if there is one. *)
Lemma bfill_gap s i l x :
  nth_error s i = Some (l, x) -> isna x = true ->
  nth_error (bfill s) i
  = Some (l, match first_valid (skipn (S i) s) with Some w => w | None => x end).
Proof.
  revert i. induction s as [|[l' v'] r IH]; intros [|i]; simpl; try discriminate.
  - intros Heq Hx. inversion Heq. subst. rewrite Hx. reflexivity.
  - intros Hi Hx. apply IH; assumption.
Qed.

(** Both fills at a gap that has a valid value before it: the last one
    before it. *)
Lemma bfill_ffill_gap_after s r l x v :
  isna x = true -> first_valid (rev s) = Some v ->
  nth_error (bfill (ffill (s ++ (l, x) :: r))) (length s) = Some (l, v).
Proof.
  intros Hx Hv. unfold ffill. rewrite ffill_from_app, Hv.
  cbn [ffill_from]. rewrite Hx.
  apply bfill_keeps.
  - rewrite <- (length_ffill_from None s). apply nth_error_middle.
  - apply notna_isna. exact (first_valid_notna _ _ Hv).
Qed.

(** Both fills at a leading gap: the first valid value after it. *)
Lemma bfill_ffill_gap_leading s r l x b :
  isna x = true -> first_valid (rev s) = None -> first_valid r = Some b ->
  nth_error (bfill (ffill (s ++ (l, x) :: r))) (length s) = Some (l, b).
Proof.
  intros Hx Hnone Hb. unfold ffill. rewrite ffill_from_app, Hnone.
  cbn [ffill_from]. rewrite Hx.
  rewrite <- (length_ffill_from None s).
  rewrite (bfill_gap _ _ l x); [|apply nth_error_middle | exact Hx].
  rewrite skipn_middle.
  pose proof (first_valid_ffill r) as Hff. unfold ffill in Hff.
  rewrite Hff, Hb. reflexivity.
Qed.

End FillFacts.

(** X4. The fill touches gaps only and invents no number: at every
    position where the raw close of the year window is not missing the
    stored original value is that close, and every stored original value
    is a non-missing close of some bar of the same window. *)
Theorem fill_keeps_observed_closes (data : DataFrame) (years : list Z) :
  RawPriceSeries data = true -> years <> [] ->
  exists res,
    process_annual_data (Some data) years = Ok (Some res)
    /\ forall y o,
        original res !! y = Some o ->
        (forall i t v,
            nth_error (year_window data y) i = Some (t, v) ->
            isna v = false -> nth_error o i = Some (t, v))
        /\ (forall t v,
               In (t, v) o ->
               isna v = false /\ exists t', In (t', v) (year_window data y)).
Proof.
  intros Hwf Hne.
  exists (run_years data years no_results).
  split; [apply process_annual_data_closed; assumption|].
  intros y o Ho.
  apply original_output in Ho. destruct Ho as (_ & Hsurv & ->).
  destruct (proj1 (survives_spec data y) Hsurv) as (_ & b & Hb).
  unfold filled. split.
  - intros i t v Hi Hv.
    apply bfill_keeps; [|exact Hv]. apply ffill_from_keeps; assumption.
  - intros t v Hin. split.
    + pose proof (bfill_ffill_notna _ _ Hb) as Hall.
      rewrite List.Forall_forall in Hall.
      apply notna_isna. apply Hall.
      change v with (snd (t, v)). apply in_map. exact Hin.
    + apply In_bfill in Hin. destruct Hin as [t1 Hin].
      apply In_ffill_from in Hin. destruct Hin as [Hnone | Hin];
        [discriminate | exact Hin].
Qed.

Lemma fill_keeps_observed_closes_witness :
  RawPriceSeries gap_frame = true /\ [2020] <> []
  /\ exists res,
      process_annual_data (Some gap_frame) [2020] = Ok (Some res)
      /\ forall y o,
          original res !! y = Some o ->
          (forall i t v,
              nth_error (year_window gap_frame y) i = Some (t, v) ->
              isna v = false -> nth_error o i = Some (t, v))
          /\ (forall t v,
                 In (t, v) o ->
                 isna v = false /\ exists t', In (t', v) (year_window gap_frame y)).
Proof.
  split; [reflexivity|]. split; [discriminate|].
  apply (fill_keeps_observed_closes gap_frame [2020]); [reflexivity | discriminate].
Defined.

(** X5. At a missing close of a stored year the original value is the
    last non-missing close before it in the year window when there is
    one (forward fill comes first), and otherwise the first non-missing
    close after it (backward fill reaches leading gaps only). *)
Theorem gap_takes_previous_close_else_next (data : DataFrame) (years : list Z) :
  RawPriceSeries data = true -> years <> [] ->
  exists res,
    process_annual_data (Some data) years = Ok (Some res)
    /\ forall y o pre t x post,
        original res !! y = Some o ->
        year_window data y = pre ++ (t, x) :: post ->
        isna x = true ->
        match first_valid (rev pre) with
        | Some v => nth_error o (length pre) = Some (t, v)
        | None =>
            exists b, first_valid post = Some b
                      /\ nth_error o (length pre) = Some (t, b)
        end.
Proof.
  intros Hwf Hne.
  exists (run_years data years no_results).
  split; [apply process_annual_data_closed; assumption|].
  intros y o pre t x post Ho Hwin Hx.
  apply original_output in Ho. destruct Ho as (_ & Hsurv & ->).
  destruct (proj1 (survives_spec data y) Hsurv) as (_ & b & Hb).
  unfold filled. rewrite Hwin in Hb |- *.
  destruct (first_valid (rev pre)) as [v|] eqn:Hv.
  - apply bfill_ffill_gap_after; assumption.
  - rewrite first_valid_app, (first_valid_rev_None _ Hv) in Hb.
    cbn [first_valid] in Hb. unfold notna in Hb. rewrite Hx in Hb. cbn [negb] in Hb.
    exists b. split; [exact Hb|].
    apply bfill_ffill_gap_leading; assumption.
Qed.

Lemma gap_takes_previous_close_else_next_witness :
  RawPriceSeries gap_frame = true /\ [2020] <> []
  /\ exists res,
      process_annual_data (Some gap_frame) [2020] = Ok (Some res)
      /\ forall y o pre t x post,
          original res !! y = Some o ->
          year_window gap_frame y = pre ++ (t, x) :: post ->
          isna x = true ->
          match first_valid (rev pre) with
          | Some v => nth_error o (length pre) = Some (t, v)
          | None =>
              exists b, first_valid post = Some b
                        /\ nth_error o (length pre) = Some (t, b)
          end.
Proof.
  split; [reflexivity|]. split; [discriminate|].
  apply (gap_takes_previous_close_else_next gap_frame [2020]);
    [reflexivity | discriminate].
Defined.

(** ** The hover text *)

Section HoverFacts.
Context {R : Rendering}.

Lemma nth_error_zip3 {A B C : Type} (a : list A) (b : list B) (c : list C)
    j x y z :
  nth_error a j = Some x -> nth_error b j = Some y -> nth_error c j = Some z ->
  nth_error (zip3 a b c) j = Some (x, y, z).
Proof.
  revert b c j. induction a as [|x' a IH]; intros [|y' b] [|z' c] [|j]; simpl;
    try discriminate.
  - intros Hx Hy Hz. inversion Hx. inversion Hy. inversion Hz. reflexivity.
  - apply IH.
Qed.

(** The loop stops with IndexError at the first labelled position the
    original series does not have. *)
Lemma hover_loop_short actual_dates original_series items j hover_text :
  (j <= length original_series)%nat ->
  (length original_series
   < Nat.min (length actual_dates) (j + length items))%nat ->
  hover_loop actual_dates original_series items j hover_text = Raise IndexError.
Proof.
  revert j hover_text.
  induction items as [|[l perf] rest IH]; intros j hover_text Hj Hlen.
  - cbn [length] in Hlen. lia.
  - cbn [hover_loop]. cbn [length] in Hlen.
    destruct (nth_error actual_dates j) as [dt|] eqn:Hd.
    + unfold iloc.
      destruct (nth_error original_series j) as [[lo v]|] eqn:Ho.
      * cbn [mbind outcome_bind]. apply IH; [|lia].
        assert (j < length original_series)%nat
          by (apply nth_error_Some; congruence).
        lia.
      * reflexivity.
    + apply nth_error_None in Hd. lia.
Qed.

End HoverFacts.

(** X6. When the original series covers every position that has both a
    date and a normalized value, [create_hover_text] returns one label
    for each such position, as many as the shorter of the dates and the
    series, and the label at a position is made of the date, the
    original value and the normalized value at that same position. *)
Theorem hover_labels_follow_positions {R : Rendering}
    (actual_dates : list Timestamp) (original_series year_series : Series Timestamp) :
  (Nat.min (length actual_dates) (length year_series)
   <= length original_series)%nat ->
  exists labels,
    create_hover_text actual_dates original_series year_series = Ok labels
    /\ length labels = Nat.min (length actual_dates) (length year_series)
    /\ forall j dt v p,
        nth_error actual_dates j = Some dt ->
        nth_error (values original_series) j = Some v ->
        nth_error (values year_series) j = Some p ->
        nth_error labels j = Some (hover_label dt v p).
Proof.
  intros Hlen.
  exists (hover_labels actual_dates original_series year_series).
  split; [apply create_hover_text_closed; exact Hlen|].
  split; [apply length_hover_labels; exact Hlen|].
  intros j dt v p Hd Hv Hp. unfold hover_labels.
  rewrite nth_error_map, (nth_error_zip3 _ _ _ _ _ _ _ Hd Hv Hp). reflexivity.
Qed.

Lemma hover_labels_follow_positions_witness :
  (Nat.min (length [jan21 4]) (length (normalized_series six_day_frame 2021))
   <= length (filled six_day_frame 2021))%nat
  /\ exists labels,
      create_hover_text (R := AsciiRendering.rendering) [jan21 4]
        (filled six_day_frame 2021) (normalized_series six_day_frame 2021)
      = Ok labels
      /\ length labels
         = Nat.min (length [jan21 4]) (length (normalized_series six_day_frame 2021))
      /\ forall j dt v p,
          nth_error [jan21 4] j = Some dt ->
          nth_error (values (filled six_day_frame 2021)) j = Some v ->
          nth_error (values (normalized_series six_day_frame 2021)) j = Some p ->
          nth_error labels j
          = Some (hover_label (R := AsciiRendering.rendering) dt v p).
Proof.
  split; [vm_compute; lia|].
  apply (hover_labels_follow_positions (R := AsciiRendering.rendering)).
  vm_compute. lia.
Defined.

(** X7. When the original series is shorter than the positions to
    label, [create_hover_text] raises IndexError instead of returning
    fewer labels. *)
Theorem hover_text_needs_original_values {R : Rendering}
    (actual_dates : list Timestamp) (original_series year_series : Series Timestamp) :
  (length original_series
   < Nat.min (length actual_dates) (length year_series))%nat ->
  create_hover_text actual_dates original_series year_series = Raise IndexError.
Proof.
  intros Hlen. unfold create_hover_text.
  apply hover_loop_short; [lia | exact Hlen].
Qed.

Lemma hover_text_needs_original_values_witness :
  (length (three_day_frame)
   < Nat.min (length (index six_day_frame))
             (length (normalized_series six_day_frame 2021)))%nat
  /\ create_hover_text (R := AsciiRendering.rendering) (index six_day_frame)
       three_day_frame (normalized_series six_day_frame 2021)
     = Raise IndexError.
Proof.
  split; [vm_compute; lia|].
  apply (hover_text_needs_original_values (R := AsciiRendering.rendering)).
  vm_compute. lia.
Defined.

(** ** The summary table *)

Lemma for_each_app {A S : Type} (f : S -> A -> outcome S) (a b : list A) (acc : S) :
  for_each f (a ++ b) acc = (acc' ← for_each f a acc; for_each f b acc').
Proof.
  revert acc. induction a as [|x a IH]; intros acc; [reflexivity|].
  cbn [app for_each]. destruct (f acc x); cbn [mbind outcome_bind];
    [apply IH | reflexivity | reflexivity].
Qed.

Lemma NoDup_add_key y ks : List.NoDup ks -> List.NoDup (add_key y ks).
Proof.
  intros Hnd. unfold add_key.
  destruct (existsb (Z.eqb y) ks) eqn:Hex; [exact Hnd|].
  apply List.NoDup_app; [exact Hnd | repeat constructor; intros [] |].
  intros z Hz [Heq | []]. subst z.
  assert (Htrue : existsb (Z.eqb y) ks = true)
    by (apply existsb_exists; exists y; split; [exact Hz | apply Z.eqb_refl]).
  congruence.
Qed.

Lemma NoDup_shown_years annual_data years ks :
  List.NoDup ks -> List.NoDup (shown_years annual_data years ks).
Proof.
  unfold shown_years. revert ks.
  induction years as [|y r IH]; intros ks Hnd; simpl; [exact Hnd|].
  apply IH. destruct (has_data annual_data y); [apply NoDup_add_key|]; exact Hnd.
Qed.

Lemma summary_step_raises
    (annual_data annual_original : gmap Z (Series Timestamp))
    (acc : odict float * odict float) (y : Z) :
  has_data annual_data y = true ->
  has_data annual_original y = false ->
  summary_step annual_data annual_original acc y
  = Raise (match annual_original !! y with
           | None => KeyError
           | Some _ => IndexError
           end).
Proof.
  unfold summary_step, has_data, getitem.
  destruct (annual_data !! y) as [[|p s]|]; try discriminate. intros _.
  rewrite (iloc_last_nonempty (p :: s)) by discriminate.
  cbn [mbind outcome_bind].
  destruct (annual_original !! y) as [[|q o]|]; try discriminate; reflexivity.
Qed.

(** X8. [create_summary_table] needs an original series for every
    displayed year that has normalized data: at the first such year
    without one it raises KeyError when the year is missing from the
    original dict, and IndexError when its original series is empty. *)
Theorem summary_needs_original_series {R : Rendering}
    (annual_data annual_original : gmap Z (Series Timestamp))
    (pre post : list Z) (y : Z) :
  coherent annual_data annual_original pre = true ->
  has_data annual_data y = true ->
  has_data annual_original y = false ->
  create_summary_table annual_data annual_original (pre ++ y :: post)
  = Raise (match annual_original !! y with
           | None => KeyError
           | Some _ => IndexError
           end).
Proof.
  intros Hpre Hy Ho.
  unfold create_summary_table, year_end.
  rewrite for_each_app.
  pose proof (year_end_closed annual_data annual_original pre Hpre) as Hrun.
  unfold year_end in Hrun. rewrite Hrun.
  cbn [mbind outcome_bind for_each].
  rewrite (summary_step_raises annual_data annual_original _ y Hy Ho).
  reflexivity.
Qed.

Lemma summary_needs_original_series_witness :
  coherent (normalized overlay_results) (delete 2019 (original overlay_results))
    [2020] = true
  /\ has_data (normalized overlay_results) 2019 = true
  /\ has_data (delete 2019 (original overlay_results)) 2019 = false
  /\ create_summary_table (R := AsciiRendering.rendering)
       (normalized overlay_results) (delete 2019 (original overlay_results))
       ([2020] ++ 2019 :: [])
     = Raise (match delete 2019 (original overlay_results) !! 2019 with
              | None => KeyError
              | Some _ => IndexError
              end).
Proof.
  split; [vm_compute; reflexivity|]. split; [vm_compute; reflexivity|].
  split; [vm_compute; reflexivity|].
  apply (summary_needs_original_series (R := AsciiRendering.rendering));
    vm_compute; reflexivity.
Defined.

(** X9. When every displayed year with normalized data has original
    data, [create_summary_table] returns no table exactly when no
    displayed year has a non-empty normalized series; a table has one
    row per such year even if the year is displayed several times, and
    its three columns have the same length. *)
Theorem summary_table_shape {R : Rendering}
    (annual_data annual_original : gmap Z (Series Timestamp))
    (years_to_display : list Z) :
  coherent annual_data annual_original years_to_display = true ->
  exists tbl,
    create_summary_table annual_data annual_original years_to_display = Ok tbl
    /\ (tbl = None <->
        forall y, In y years_to_display -> has_data annual_data y = false)
    /\ forall t,
        tbl = Some t ->
        List.NoDup (Year t)
        /\ (forall y, In y (Year t) <->
                      In y years_to_display /\ has_data annual_data y = true)
        /\ length (Year_End_Value t) = length (Year t)
        /\ length (Year_Performance t) = length (Year t).
Proof.
  intros Hc.
  rewrite (create_summary_table_closed annual_data annual_original _ Hc).
  pose proof (NoDup_shown_years annual_data years_to_display [] (List.NoDup_nil Z))
    as Hnd.
  assert (Hmem : forall y, In y (shown_years annual_data years_to_display []) <->
                   In y years_to_display /\ has_data annual_data y = true).
  { intros y. rewrite In_shown_years. simpl. tauto. }
  destruct (shown_years annual_data years_to_display []) as [|k ks].
  - exists None. split; [reflexivity|]. split; [|discriminate].
    split; [|reflexivity]. intros _ y Hy.
    destruct (has_data annual_data y) eqn:Hd; [|reflexivity].
    destruct (proj2 (Hmem y) (conj Hy Hd)).
  - eexists. split; [reflexivity|]. split.
    + split; [discriminate|]. intros Hall.
      destruct (proj1 (Hmem k) (or_introl eq_refl)) as [Hk Hd].
      rewrite (Hall k Hk) in Hd. discriminate.
    + intros t Ht. inversion Ht. subst t. cbn [Year Year_End_Value Year_Performance].
      split; [exact Hnd|]. split; [exact Hmem|].
      split; simpl; rewrite !length_map; reflexivity.
Qed.

Lemma summary_table_shape_witness :
  coherent (normalized overlay_results) (original overlay_results)
    [2020; 2021; 2019; 2020] = true
  /\ exists tbl,
      create_summary_table (R := AsciiRendering.rendering)
        (normalized overlay_results) (original overlay_results)
        [2020; 2021; 2019; 2020] = Ok tbl
      /\ (tbl = None <->
          forall y, In y [2020; 2021; 2019; 2020] ->
                    has_data (normalized overlay_results) y = false)
      /\ forall t,
          tbl = Some t ->
          List.NoDup (Year t)
          /\ (forall y, In y (Year t) <->
                        In y [2020; 2021; 2019; 2020]
                        /\ has_data (normalized overlay_results) y = true)
          /\ length (Year_End_Value t) = length (Year t)
          /\ length (Year_Performance t) = length (Year t).
Proof.
  split; [vm_compute; reflexivity|].
  apply (summary_table_shape (R := AsciiRendering.rendering)).
  vm_compute. reflexivity.
Defined.

(** ** The chart *)

Section TraceFacts.
Context {R : Rendering}.

Lemma trace_names_of res show_percent years i :
  chart_ready res years = true ->
  map trace_name (traces_of res show_percent i years)
  = map str_int (List.filter (has_series res) years).
Proof.
  unfold chart_ready, has_series. revert i.
  induction years as [|y r IH]; intros i Hr; [reflexivity|].
  cbn [forallb] in Hr. apply andb_true_iff in Hr. destruct Hr as [Hy Hr].
  cbn [traces_of List.filter].
  destruct (normalized res !! y) as [s|]; [|apply IH; exact Hr].
  destruct (dates res !! y) as [ds|]; [|discriminate].
  destruct (original res !! y) as [o|]; [|discriminate].
  cbn [map trace_name trace_of]. rewrite (IH (S i) Hr). reflexivity.
Qed.

(** The colours of the traces are taken, in order, from the colours of
    the display positions. *)
Lemma trace_colors_of res show_percent years i :
  map trace_color (traces_of res show_percent i years)
  `sublist_of`
  map (fun j => nth (j mod length COLOR_PALETTE) COLOR_PALETTE ""%string)
      (seq i (length years)).
Proof.
  revert i. induction years as [|y r IH]; intros i; [constructor|].
  cbn [traces_of length seq map].
  destruct (normalized res !! y) as [s|]; [|apply sublist_cons, IH].
  destruct (dates res !! y) as [ds|]; [|apply sublist_cons, IH].
  destruct (original res !! y) as [o|]; [|apply sublist_cons, IH].
  cbn [map trace_color trace_of]. apply sublist_skip, IH.
Qed.

Lemma palette_positions_distinct n :
  (n <= 10)%nat ->
  List.NoDup
    (map (fun j => nth (j mod length COLOR_PALETTE) COLOR_PALETTE ""%string)
         (seq 0 n)).
Proof.
  intros Hn.
  assert (Hall : List.NoDup
            (map (fun j => nth (j mod length COLOR_PALETTE) COLOR_PALETTE ""%string)
                 (seq 0 10))).
  { vm_compute. repeat (constructor; [simpl; intros Hin;
      repeat (destruct Hin as [Hin | Hin]; [discriminate|]); exact Hin|]).
    constructor. }
  replace (seq 0 10) with (seq 0 n ++ seq n (10 - n)) in Hall
    by (rewrite <- seq_app; f_equal; lia).
  rewrite map_app in Hall. exact (List.NoDup_app_remove_r _ _ Hall).
Qed.

Lemma year_trace_KeyError res show_percent i y s :
  match dates res !! y, original res !! y with
  | Some _, Some _ => false
  | _, _ => true
  end = true ->
  year_trace res show_percent i y s = Raise KeyError.
Proof.
  unfold year_trace, getitem.
  destruct (dates res !! y) as [ds|], (original res !! y) as [o|];
    try discriminate; intros _; destruct show_percent; reflexivity.
Qed.

Lemma chart_loop_raises_after res show_percent pre rest i e :
  chart_ready res pre = true ->
  chart_loop res show_percent (i + length pre) rest = Raise e ->
  chart_loop res show_percent i (pre ++ rest) = Raise e.
Proof.
  unfold chart_ready. revert i.
  induction pre as [|y r IH]; intros i Hr Hrest.
  - cbn [length app] in *. rewrite Nat.add_0_r in Hrest. exact Hrest.
  - cbn [forallb] in Hr. apply andb_true_iff in Hr. destruct Hr as [Hy Hr].
    cbn [length] in Hrest. rewrite Nat.add_succ_r in Hrest.
    specialize (IH (S i) Hr Hrest).
    cbn [app chart_loop].
    destruct (normalized res !! y) as [s|]; [|exact IH].
    destruct (dates res !! y) as [ds|] eqn:Hds; [|discriminate].
    destruct (original res !! y) as [o|] eqn:Ho; [|discriminate].
    apply Nat.leb_le in Hy.
    rewrite (year_trace_closed res show_percent i y s ds o Hds Ho Hy).
    cbn [mbind outcome_bind]. rewrite IH. reflexivity.
Qed.

End TraceFacts.

(** X10. When the chart can be built it has one trace for each
    displayed year that has a normalized series, in the order of the
    display list (a year displayed twice is drawn twice), each named by
    its year. *)
Theorem chart_traces_follow_display_order {R : Rendering}
    (res : AnnualResults) (ticker : string) (years : list Z) (show_percent : bool) :
  chart_ready res years = true ->
  exists fig,
    create_performance_chart res ticker years show_percent = Ok fig
    /\ map trace_name (traces fig)
       = map str_int (List.filter (has_series res) years)
    /\ length (traces fig) = length (List.filter (has_series res) years).
Proof.
  intros Hr.
  destruct (create_performance_chart_closed res ticker years show_percent Hr)
    as (fig & Hfig & Htraces).
  exists fig. split; [exact Hfig|].
  assert (Hnames : map trace_name (traces fig)
                   = map str_int (List.filter (has_series res) years))
    by (rewrite Htraces; apply trace_names_of; exact Hr).
  split; [exact Hnames|].
  rewrite <- (length_map trace_name), Hnames, length_map. reflexivity.
Qed.

Lemma chart_traces_follow_display_order_witness :
  chart_ready overlay_results [2020; 2021; 2019; 2020] = true
  /\ exists fig,
      create_performance_chart (R := AsciiRendering.rendering)
        overlay_results "aapl" [2020; 2021; 2019; 2020] true = Ok fig
      /\ map trace_name (traces fig)
         = map AsciiRendering.str_of_int
             (List.filter (has_series overlay_results) [2020; 2021; 2019; 2020])
      /\ length (traces fig)
         = length (List.filter (has_series overlay_results) [2020; 2021; 2019; 2020]).
Proof.
  split; [vm_compute; reflexivity|].
  apply (chart_traces_follow_display_order (R := AsciiRendering.rendering)).
  vm_compute. reflexivity.
Defined.

(** X11. With at most ten displayed years no two traces of the chart
    have the same colour. *)
Theorem chart_colours_are_distinct {R : Rendering}
    (res : AnnualResults) (ticker : string) (years : list Z) (show_percent : bool) :
  chart_ready res years = true -> (length years <= 10)%nat ->
  exists fig,
    create_performance_chart res ticker years show_percent = Ok fig
    /\ List.NoDup (map trace_color (traces fig)).
Proof.
  intros Hr Hlen.
  destruct (create_performance_chart_closed res ticker years show_percent Hr)
    as (fig & Hfig & Htraces).
  exists fig. split; [exact Hfig|].
  rewrite Htraces. apply NoDup_ListNoDup.
  eapply sublist_NoDup; [|apply trace_colors_of].
  apply NoDup_ListNoDup. apply palette_positions_distinct. exact Hlen.
Qed.

Lemma chart_colours_are_distinct_witness :
  chart_ready overlay_results [2020; 2021; 2019] = true
  /\ (length [2020; 2021; 2019] <= 10)%nat
  /\ exists fig,
      create_performance_chart (R := AsciiRendering.rendering)
        overlay_results "aapl" [2020; 2021; 2019] false = Ok fig
      /\ List.NoDup (map trace_color (traces fig)).
Proof.
  split; [vm_compute; reflexivity|]. split; [simpl; lia|].
  apply (chart_colours_are_distinct (R := AsciiRendering.rendering));
    [vm_compute; reflexivity | simpl; lia].
Defined.

(** The eleventh displayed year gets the colour of the first. *)
Example eleventh_trace_repeats_first_colour :
  nth (10 mod length COLOR_PALETTE) COLOR_PALETTE ""%string
  = nth (0 mod length COLOR_PALETTE) COLOR_PALETTE ""%string.
Proof. reflexivity. Qed.

(** X12. The chart needs the dates and the original series of every
    displayed year that has a normalized series: at the first such year
    missing from the dates dict or from the original dict it raises
    KeyError, in either display mode. *)
Theorem chart_needs_dates_and_original {R : Rendering}
    (res : AnnualResults) (ticker : string) (pre post : list Z) (y : Z)
    (show_percent : bool) :
  chart_ready res pre = true ->
  has_series res y = true ->
  match dates res !! y, original res !! y with
  | Some _, Some _ => false
  | _, _ => true
  end = true ->
  create_performance_chart res ticker (pre ++ y :: post) show_percent
  = Raise KeyError.
Proof.
  intros Hpre Hy Hmiss. unfold create_performance_chart.
  rewrite (chart_loop_raises_after res show_percent pre (y :: post) 0 KeyError Hpre);
    [reflexivity|].
  cbn [chart_loop]. unfold has_series in Hy.
  destruct (normalized res !! y) as [s|]; [|discriminate].
  rewrite (year_trace_KeyError res show_percent _ y s Hmiss). reflexivity.
Qed.

Lemma chart_needs_dates_and_original_witness :
  chart_ready results_without_dates [] = true
  /\ has_series results_without_dates 2021 = true
  /\ match dates results_without_dates !! 2021,
           original results_without_dates !! 2021 with
     | Some _, Some _ => false
     | _, _ => true
     end = true
  /\ create_performance_chart (R := AsciiRendering.rendering)
       results_without_dates "aapl" ([] ++ 2021 :: []) true
     = Raise KeyError.
Proof.
  split; [reflexivity|]. split; [vm_compute; reflexivity|].
  split; [vm_compute; reflexivity|].
  apply (chart_needs_dates_and_original (R := AsciiRendering.rendering));
    vm_compute; reflexivity.
Defined.

(** The same without the original series, in value mode. *)
Example chart_without_original_raises :
  create_performance_chart (R := AsciiRendering.rendering)
    results_without_original "aapl" [2021] false
  = Raise KeyError.
Proof. vm_compute. reflexivity. Qed.

(** ** What the page shows *)

Lemma normalized_empty_iff (data : DataFrame) (years : list Z) :
  size (normalized (run_years data years no_results)) = 0%nat
  <-> forall y, In y years -> survives data y = false.
Proof.
  rewrite map_size_empty_iff, map_empty. split.
  - intros Hall y Hy. specialize (Hall y).
    rewrite normalized_run_years in Hall.
    apply requested_In in Hy. rewrite Hy in Hall. cbn [andb] in Hall.
    destruct (survives data y); [discriminate | reflexivity].
  - intros Hall y. rewrite normalized_run_years.
    destruct (requested y years) eqn:Hreq; [|reflexivity].
    apply requested_In in Hreq. rewrite (Hall y Hreq). reflexivity.
Qed.

(** X13. On a well-formed frame and a non-empty selection the page
    never fails and shows one of two things: a single warning, exactly
    when no selected year has more than 5 bars and a non-missing close;
    or the chart, the summary heading and the summary table, all three,
    exactly when some selected year has. The chart is never shown
    without the table. *)
Theorem page_shows_warning_or_chart_and_table {R : Rendering}
    (data : DataFrame) (ticker : string) (years : list Z) (show_percent : bool) :
  RawPriceSeries data = true -> years <> [] ->
  let kept := fun y =>
    (5 < length (year_window data y))%nat
    /\ exists t v, In (t, v) (year_window data y) /\ isna v = false in
  ((forall y, In y years -> ~ kept y)
   /\ process_and_display_data (Some data) ticker years show_percent
      = Ok [Warning ("No complete annual data available for "
                     ++ ticker ++ " in the selected years.")])
  \/ ((exists y, In y years /\ kept y)
      /\ exists fig t,
          process_and_display_data (Some data) ticker years show_percent
          = Ok [PlotlyChart fig; Subheader "Performance Summary"; Table t]).
Proof.
  intros Hwf Hne kept. subst kept. cbv beta.
  pose proof (process_annual_data_closed data Hwf years Hne) as Hrun.
  pose proof (create_summary_table_closed
                (normalized (run_years data years no_results))
                (original (run_years data years no_results)) years
                (pipeline_coherent data years years)) as Htbl.
  destruct (create_performance_chart_closed (run_years data years no_results)
              ticker years show_percent (pipeline_chart_ready data years years))
    as (fig & Hfig & _).
  assert (Hshow : process_and_display_data (Some data) ticker years show_percent
                  = (if Nat.eqb (size (normalized (run_years data years no_results))) 0
                     then Ok [Warning ("No complete annual data available for "
                                       ++ ticker ++ " in the selected years.")]
                     else
                       summary_df ← create_summary_table
                         (normalized (run_years data years no_results))
                         (original (run_years data years no_results)) years;
                       Ok ([PlotlyChart fig; Subheader "Performance Summary"]
                           ++ match summary_df with
                              | Some t => [Table t]
                              | None => []
                              end))).
  { unfold process_and_display_data. destruct years as [|y0 ys]; [contradiction|].
    rewrite Hrun. cbn [mbind outcome_bind].
    destruct (Nat.eqb (size (normalized (run_years data (y0 :: ys) no_results))) 0);
      [reflexivity|].
    rewrite Hfig. reflexivity. }
  rewrite Hshow.
  destruct (Nat.eqb_spec (size (normalized (run_years data years no_results))) 0)
    as [Hzero | Hpos].
  - left. split; [|reflexivity].
    intros y Hy Hkept. apply kept_iff_survives in Hkept.
    rewrite (proj1 (normalized_empty_iff data years) Hzero y Hy) in Hkept.
    discriminate.
  - right.
    assert (Hex : exists y, In y years /\ survives data y = true).
    { destruct (existsb (survives data) years) eqn:Hex.
      - apply existsb_exists in Hex. exact Hex.
      - exfalso. apply Hpos. apply normalized_empty_iff. intros y Hy.
        destruct (survives data y) eqn:Hs; [|reflexivity].
        assert (existsb (survives data) years = true)
          by (apply existsb_exists; exists y; auto).
        congruence. }
    destruct Hex as (y & Hy & Hs).
    split; [exists y; split; [exact Hy | apply kept_iff_survives; exact Hs]|].
    rewrite Htbl. cbn [mbind outcome_bind].
    assert (Hin : In y (shown_years (normalized (run_years data years no_results))
                          years [])).
    { apply In_shown_years. right. split; [exact Hy|].
      rewrite has_data_normalized, Hs.
      apply requested_In in Hy. rewrite Hy. reflexivity. }
    destruct (shown_years (normalized (run_years data years no_results)) years [])
      as [|k ks]; [destruct Hin|].
    eexists. eexists. reflexivity.
Qed.

Lemma page_shows_warning_or_chart_and_table_witness :
  RawPriceSeries two_year_frame = true /\ [2019] <> []
  /\ let kept := fun y =>
       (5 < length (year_window two_year_frame y))%nat
       /\ exists t v, In (t, v) (year_window two_year_frame y) /\ isna v = false in
     ((forall y, In y [2019] -> ~ kept y)
      /\ process_and_display_data (R := AsciiRendering.rendering)
           (Some two_year_frame) "aapl" [2019] true
         = Ok [Warning ("No complete annual data available for "
                        ++ "aapl" ++ " in the selected years.")])
     \/ ((exists y, In y [2019] /\ kept y)
         /\ exists fig t,
             process_and_display_data (R := AsciiRendering.rendering)
               (Some two_year_frame) "aapl" [2019] true
             = Ok [PlotlyChart fig; Subheader "Performance Summary"; Table t]).
Proof.
  split; [reflexivity|]. split; [discriminate|].
  apply (page_shows_warning_or_chart_and_table (R := AsciiRendering.rendering)
           two_year_frame "aapl" [2019] true); [reflexivity | discriminate].
Defined.

(** The two outcomes on the example: only 2019 selected, then both
    years. *)
Example two_year_frame_pages :
  process_and_display_data (R := AsciiRendering.rendering)
    (Some two_year_frame) "aapl" [2019] true
  = Ok [Warning "No complete annual data available for aapl in the selected years."]
  /\ exists fig,
      process_and_display_data (R := AsciiRendering.rendering)
        (Some two_year_frame) "aapl" [2019; 2020] true
      = Ok [PlotlyChart fig; Subheader "Performance Summary";
            Table (mkSummaryTable [2020] ["25.00"%string] ["25.00"%string])].
Proof.
  split; [vm_compute; reflexivity|].
  eexists. vm_compute. reflexivity.
Qed.

(** ** The sidebar and the fetch *)

Lemma In_range_down start stop y :
  In y (range_down start stop) <-> stop < y <= start.
Proof.
  unfold range_down. rewrite in_map_iff. split.
  - intros (k & <- & Hk). apply in_seq in Hk. lia.
  - intros Hy. exists (Z.to_nat (start - y)). split; [lia|].
    apply in_seq. lia.
Qed.

Lemma nth_error_range_down start stop i :
  (i < Z.to_nat (start - stop))%nat ->
  nth_error (range_down start stop) i = Some (start - Z.of_nat i).
Proof.
  intros Hi. unfold range_down.
  rewrite nth_error_map, nth_error_seq.
  destruct (Nat.ltb_spec i (Z.to_nat (start - stop))); [reflexivity | lia].
Qed.

(** The minimum that [min] computes over a non-empty list. *)
Lemma fold_min_spec (r : list Z) (y : Z) :
  In (fold_left Z.min r y) (y :: r)
  /\ forall z, In z (y :: r) -> fold_left Z.min r y <= z.
Proof.
  revert y. induction r as [|x r IH]; intros y; cbn [fold_left].
  - split; [left; reflexivity|]. intros z [Heq | []]. lia.
  - destruct (IH (Z.min y x)) as [Hin Hle]. split.
    + destruct Hin as [Heq | Hin]; [|right; right; exact Hin].
      rewrite <- Heq. destruct (Z.min_spec y x) as [[_ ->] | [_ ->]];
        [left | right; left]; reflexivity.
    + intros z [Heq | [Heq | Hz]].
      * specialize (Hle (Z.min y x) (or_introl eq_refl)). lia.
      * specialize (Hle (Z.min y x) (or_introl eq_refl)). lia.
      * apply Hle. right. exact Hz.
Qed.

(** X14. The years offered in the sidebar for [num_years >= 0] are
    exactly the [num_years] most recent years up to the current one,
    each once, newest first and going down one year at a time. *)
Theorem offered_years_are_the_most_recent (current_year num_years : Z) :
  0 <= num_years ->
  length (all_years current_year num_years) = Z.to_nat num_years
  /\ (forall y, In y (all_years current_year num_years)
                <-> current_year - num_years < y <= current_year)
  /\ (forall i, (i < Z.to_nat num_years)%nat ->
                nth_error (all_years current_year num_years) i
                = Some (current_year - Z.of_nat i))
  /\ List.NoDup (all_years current_year num_years).
Proof.
  intros Hn. unfold all_years.
  assert (Hlen : Z.to_nat (current_year - (current_year - num_years))
                 = Z.to_nat num_years) by (f_equal; lia).
  split; [unfold range_down; rewrite length_map, length_seq; exact Hlen|].
  split; [intros y; apply In_range_down|].
  split; [intros i Hi; apply nth_error_range_down; lia|].
  unfold range_down. apply Finite.Injective_map_NoDup; [|apply seq_NoDup].
  intros a b Hab. lia.
Qed.

Lemma offered_years_are_the_most_recent_witness :
  0 <= 5
  /\ all_years 2026 5 = [2026; 2025; 2024; 2023; 2022]
  /\ length (all_years 2026 5) = Z.to_nat 5
  /\ (forall y, In y (all_years 2026 5) <-> 2026 - 5 < y <= 2026)
  /\ (forall i, (i < Z.to_nat 5)%nat ->
                nth_error (all_years 2026 5) i = Some (2026 - Z.of_nat i))
  /\ List.NoDup (all_years 2026 5).
Proof.
  split; [lia|]. split; [reflexivity|].
  apply (offered_years_are_the_most_recent 2026 5). lia.
Defined.

(** X15. [get_asset_data] never raises and reports every failure
    itself: it returns a frame only when years are selected and the
    download answered with a non-empty frame, and then shows nothing;
    in every other case (no year selected, download failed, no frame, an
    empty frame) it returns nothing and shows exactly one message, a
    warning for an empty selection and an error otherwise. *)
Theorem fetch_reports_every_failure {R : Rendering}
    (download : string -> string -> string -> download_result)
    (today ticker : string) (years : list Z) :
  match get_asset_data download today ticker years with
  | (Some asset_df, messages) =>
      messages = [] /\ asset_df <> [] /\ years <> []
      /\ exists start_date,
          download ticker start_date today = Downloaded (Some asset_df)
  | (None, messages) =>
      (years = [] /\ exists text, messages = [Warning text])
      \/ (years <> [] /\ exists text, messages = [Error text])
  end.
Proof.
  unfold get_asset_data. destruct years as [|y r].
  - left. split; [reflexivity | eexists; reflexivity].
  - destruct (download ticker _ today) as [[[|row rows]|]|e] eqn:Hd.
    + right. split; [discriminate | eexists; reflexivity].
    + split; [reflexivity|]. split; [discriminate|]. split; [discriminate|].
      eexists. exact Hd.
    + right. split; [discriminate | eexists; reflexivity].
    + right. split; [discriminate | eexists; reflexivity].
Qed.

(** X16. For a non-empty selection [get_asset_data] consults the
    download at one range only: from December 31 of the year before the
    earliest selected year to today. *)
Theorem fetch_starts_before_earliest_year {R : Rendering}
    (download : string -> string -> string -> download_result)
    (today ticker : string) (years : list Z) :
  years <> [] ->
  exists earliest,
    In earliest years
    /\ (forall y, In y years -> earliest <= y)
    /\ get_asset_data download today ticker years
       = get_asset_data
           (fun _ _ _ =>
              download ticker (str_int (earliest - 1) ++ "-12-31")%string today)
           today ticker years.
Proof.
  intros Hne. destruct years as [|y r]; [contradiction|].
  destruct (fold_min_spec r y) as [Hin Hle].
  exists (fold_left Z.min r y).
  split; [exact Hin|]. split; [exact Hle|]. reflexivity.
Qed.

Lemma fetch_starts_before_earliest_year_witness :
  [2024; 2022; 2023] <> []
  /\ exists earliest,
      In earliest [2024; 2022; 2023]
      /\ (forall y, In y [2024; 2022; 2023] -> earliest <= y)
      /\ get_asset_data (R := AsciiRendering.rendering)
           overlay_download "2026-11-03" "aapl" [2024; 2022; 2023]
         = get_asset_data (R := AsciiRendering.rendering)
             (fun _ _ _ =>
                overlay_download "aapl"
                  (AsciiRendering.str_of_int (earliest - 1) ++ "-12-31")%string
                  "2026-11-03")
             "2026-11-03" "aapl" [2024; 2022; 2023].
Proof.
  split; [discriminate|].
  apply (fetch_starts_before_earliest_year (R := AsciiRendering.rendering)
           overlay_download "2026-11-03" "aapl" [2024; 2022; 2023]).
  discriminate.
Defined.

(** The start date asked for the selection 2024, 2022, 2023. *)
Example start_date_of_selection :
  get_asset_data (R := AsciiRendering.rendering)
    (fun _ start_date _ => DownloadFailed start_date)
    "2026-11-03" "aapl" [2024; 2022; 2023]
  = (None, [Error "Error fetching data: 2021-12-31"]).
Proof. vm_compute. reflexivity. Qed.

(** X17. The fetch and the display together never fail on a failed
    fetch, and report it twice: an empty selection shows the same
    warning two times, once from [get_asset_data] and once from its
    caller; a selection for which no frame is returned shows the error
    of [get_asset_data] followed by the caller's error. When a frame is
    returned the fetch adds nothing to what is shown for it. *)
Theorem failed_fetch_is_reported_twice {R : Rendering}
    (download : string -> string -> string -> download_result)
    (today ticker : string) (years : list Z) (show_percent : bool) :
  (years = [] ->
   fetch_and_display download today ticker years show_percent
   = Ok [Warning "Please select at least one year to display";
         Warning "Please select at least one year to display"])
  /\ (years <> [] ->
      fst (get_asset_data download today ticker years) = None ->
      exists text,
        fetch_and_display download today ticker years show_percent
        = Ok [Error text;
              Error ("Failed to retrieve data for " ++ ticker
                     ++ ". Please check the ticker symbol.")])
  /\ (forall asset_df,
         fst (get_asset_data download today ticker years) = Some asset_df ->
         fetch_and_display download today ticker years show_percent
         = process_and_display_data (Some asset_df) ticker years show_percent).
Proof.
  split; [intros ->; reflexivity|].
  pose proof (fetch_reports_every_failure download today ticker years) as Hfetch.
  unfold fetch_and_display.
  destruct (get_asset_data download today ticker years) as [[asset_df|] messages].
  - destruct Hfetch as (-> & _ & _ & _).
    split; [intros _ Hnone; discriminate|].
    intros df Hdf. cbn [fst] in Hdf. inversion Hdf. subst df.
    destruct (process_and_display_data (Some asset_df) ticker years show_percent);
      reflexivity.
  - split; [|intros df Hdf; discriminate].
    intros Hne _.
    destruct Hfetch as [[Hnil _] | [_ [text ->]]]; [contradiction|].
    exists text. destruct years as [|y r]; [contradiction | reflexivity].
Qed.

Lemma failed_fetch_is_reported_twice_witness :
  [2020; 2019] <> []
  /\ fst (get_asset_data (R := AsciiRendering.rendering)
            failing_download "2026-11-03" "aapl" [2020; 2019]) = None
  /\ exists text,
      fetch_and_display (R := AsciiRendering.rendering)
        failing_download "2026-11-03" "aapl" [2020; 2019] true
      = Ok [Error text;
            Error ("Failed to retrieve data for " ++ "aapl"
                   ++ ". Please check the ticker symbol.")].
Proof.
  split; [discriminate|]. split; [reflexivity|].
  apply (proj1 (proj2 (failed_fetch_is_reported_twice (R := AsciiRendering.rendering)
                         failing_download "2026-11-03" "aapl" [2020; 2019] true)));
    [discriminate | reflexivity].
Defined.

(** A failed download and a successful one on the example. *)
Example fetch_and_display_examples :
  fetch_and_display (R := AsciiRendering.rendering)
    failing_download "2026-11-03" "aapl" [2020; 2019] true
  = Ok [Error "Error fetching data: connection reset";
        Error "Failed to retrieve data for aapl. Please check the ticker symbol."]
  /\ fetch_and_display (R := AsciiRendering.rendering)
       overlay_download "2026-11-03" "aapl" [2020; 2019] true
     = process_and_display_data (R := AsciiRendering.rendering)
         (Some overlay_frame) "aapl" [2020; 2019] true.
Proof. split; vm_compute; reflexivity. Qed.

(** ** The chart and the table on the output of the pipeline *)

Lemma has_series_normalized (data : DataFrame) (years : list Z) (y : Z) :
  has_series (run_years data years no_results) y
  = requested y years && survives data y.
Proof.
  unfold has_series. rewrite normalized_run_years.
  destruct (requested y years && survives data y); reflexivity.
Qed.

(** X18. On a well-formed frame every trace of the chart is complete:
    its x values, its y values, its hover labels and its custom data all
    have one entry per bar of the year window it draws, in both display
    modes; the hover text is never dropped. *)
Theorem pipeline_traces_are_complete {R : Rendering}
    (data : DataFrame) (ticker : string) (years : list Z) (show_percent : bool) :
  RawPriceSeries data = true -> years <> [] ->
  exists res fig,
    process_annual_data (Some data) years = Ok (Some res)
    /\ create_performance_chart res ticker years show_percent = Ok fig
    /\ forall tr,
        In tr (traces fig) ->
        exists y labels,
          In y years
          /\ trace_name tr = str_int y
          /\ length (trace_x tr) = length (year_window data y)
          /\ length (trace_y tr) = length (year_window data y)
          /\ trace_hovertext tr = Some labels
          /\ length labels = length (year_window data y)
          /\ length (trace_customdata tr) = length (year_window data y).
Proof.
  intros Hwf Hne.
  destruct (create_performance_chart_closed (run_years data years no_results)
              ticker years show_percent (pipeline_chart_ready data years years))
    as (fig & Hfig & Htraces).
  exists (run_years data years no_results), fig.
  split; [apply process_annual_data_closed; assumption|].
  split; [exact Hfig|].
  intros tr Htr. rewrite Htraces in Htr.
  destruct (In_traces_of _ _ _ _ _ Htr)
    as (j & y & s & ds & o & Hy & Hs & Hds & Ho & ->).
  apply normalized_output in Hs. destruct Hs as (_ & _ & ->).
  apply dates_output in Hds. destruct Hds as (_ & _ & ->).
  apply original_output in Ho. destruct Ho as (_ & _ & ->).
  exists y, (hover_labels (index (year_window data y)) (filled data y)
               (normalized_series data y)).
  assert (Hlabels : length (hover_labels (index (year_window data y))
                              (filled data y) (normalized_series data y))
                    = length (year_window data y)).
  { rewrite length_hover_labels
      by (rewrite length_index, length_filled, length_normalized_series; lia).
    rewrite length_index, length_normalized_series. lia. }
  split; [exact Hy|]. split; [reflexivity|].
  cbn [trace_of trace_x trace_y trace_hovertext trace_customdata].
  split; [rewrite length_index; apply length_normalized_series|].
  split.
  { destruct show_percent; rewrite length_values;
      [apply length_normalized_series | apply length_filled]. }
  split.
  { rewrite Hlabels, length_index, length_normalized_series, Nat.eqb_refl.
    reflexivity. }
  split; [exact Hlabels|].
  rewrite length_map, length_zip3, !length_values, length_index,
    length_filled, length_normalized_series. lia.
Qed.

Lemma pipeline_traces_are_complete_witness :
  RawPriceSeries gap_frame = true /\ [2020] <> []
  /\ exists res fig,
      process_annual_data (Some gap_frame) [2020] = Ok (Some res)
      /\ create_performance_chart (R := AsciiRendering.rendering)
           res "btc-usd" [2020] false = Ok fig
      /\ forall tr,
          In tr (traces fig) ->
          exists y labels,
            In y [2020]
            /\ trace_name tr = AsciiRendering.str_of_int y
            /\ length (trace_x tr) = length (year_window gap_frame y)
            /\ length (trace_y tr) = length (year_window gap_frame y)
            /\ trace_hovertext tr = Some labels
            /\ length labels = length (year_window gap_frame y)
            /\ length (trace_customdata tr) = length (year_window gap_frame y).
Proof.
  split; [reflexivity|]. split; [discriminate|].
  apply (pipeline_traces_are_complete (R := AsciiRendering.rendering)
           gap_frame "btc-usd" [2020] false); [reflexivity | discriminate].
Defined.

(** X19. On a well-formed frame and a selection without repetition the
    summary table lists exactly the years the chart draws, in the same
    order: the selected years that have more than 5 bars and a
    non-missing close, as selected. *)
Theorem table_rows_match_chart_traces {R : Rendering}
    (data : DataFrame) (ticker : string) (years : list Z) (show_percent : bool) :
  RawPriceSeries data = true -> years <> [] -> List.NoDup years ->
  exists res fig tbl,
    process_annual_data (Some data) years = Ok (Some res)
    /\ create_performance_chart res ticker years show_percent = Ok fig
    /\ create_summary_table (normalized res) (original res) years = Ok tbl
    /\ summary_years tbl = List.filter (survives data) years
    /\ map trace_name (traces fig) = map str_int (summary_years tbl).
Proof.
  intros Hwf Hne Hnd.
  destruct (create_performance_chart_closed (run_years data years no_results)
              ticker years show_percent (pipeline_chart_ready data years years))
    as (fig & Hfig & Htraces).
  pose proof (create_summary_table_closed
                (normalized (run_years data years no_results))
                (original (run_years data years no_results)) years
                (pipeline_coherent data years years)) as Htbl.
  eexists (run_years data years no_results), fig, _.
  split; [apply process_annual_data_closed; assumption|].
  split; [exact Hfig|]. split; [exact Htbl|].
  assert (Hshown : shown_years (normalized (run_years data years no_results)) years []
                   = List.filter (survives data) years).
  { rewrite shown_years_NoDup; [|exact Hnd | intros y _ []].
    cbn [app]. apply List.filter_ext_in. intros y Hy.
    rewrite has_data_normalized. apply requested_In in Hy. rewrite Hy. reflexivity. }
  assert (Hyears : summary_years
                     (match shown_years (normalized (run_years data years no_results))
                              years [] with
                      | [] => None
                      | ks =>
                          Some (mkSummaryTable ks
                                  (map (fun k => fmt_2f
                                          (last_value
                                             (original (run_years data years no_results)) k))
                                       ks)
                                  (map (fun k => fmt_2f
                                          (last_value
                                             (normalized (run_years data years no_results)) k))
                                       ks))
                      end)
                   = List.filter (survives data) years).
  { rewrite <- Hshown.
    destruct (shown_years (normalized (run_years data years no_results)) years []);
      reflexivity. }
  split; [exact Hyears|].
  rewrite Hyears, Htraces.
  rewrite (trace_names_of _ _ _ _ (pipeline_chart_ready data years years)).
  f_equal. apply List.filter_ext_in. intros y Hy.
  rewrite has_series_normalized. apply requested_In in Hy. rewrite Hy. reflexivity.
Qed.

Lemma table_rows_match_chart_traces_witness :
  RawPriceSeries overlay_frame = true /\ [2020; 2021; 2019] <> []
  /\ List.NoDup [2020; 2021; 2019]
  /\ exists res fig tbl,
      process_annual_data (Some overlay_frame) [2020; 2021; 2019] = Ok (Some res)
      /\ create_performance_chart (R := AsciiRendering.rendering)
           res "aapl" [2020; 2021; 2019] true = Ok fig
      /\ create_summary_table (R := AsciiRendering.rendering)
           (normalized res) (original res) [2020; 2021; 2019] = Ok tbl
      /\ summary_years tbl
         = List.filter (survives overlay_frame) [2020; 2021; 2019]
      /\ map trace_name (traces fig)
         = map AsciiRendering.str_of_int (summary_years tbl).
Proof.
  assert (Hnd : List.NoDup [2020; 2021; 2019]).
  { repeat constructor; simpl; intros H;
      repeat (destruct H as [H | H]; [discriminate|]); exact H. }
  split; [reflexivity|]. split; [discriminate|]. split; [exact Hnd|].
  apply (table_rows_match_chart_traces (R := AsciiRendering.rendering)
           overlay_frame "aapl" [2020; 2021; 2019] true);
    [reflexivity | discriminate | exact Hnd].
Defined.
